(** * pose_server.py: the producer / mailbox / broadcast pipeline

    A shallow embedding of [Python (Server)/pose_server.py].

    Conventions of the embedding:
    - a Python [float] is a rational [Q] with exact arithmetic (rounding,
      infinities and NaN are outside the model); every comparison the code
      makes on floats is made here on the rationals;
    - a Python [int] is a [Z];
    - a Python [dict] with string keys is a [gmap string value]; dict objects
      live in a heap indexed by object identities, so that the difference
      between the shared payload and a copy of it is visible;
    - the set [CONNECTED] is a [gset] of connection identities;
    - an exception is the [Raise] constructor of [result];
    - the clock, the camera, the pose estimator, the keyboard and the sockets
      are inputs: each loop iteration receives a record of what they
      answered during that iteration. *)

From Stdlib Require Import ZArith QArith Qminmax Lia Lqa.
From stdpp Require Import base option list gmap sets strings.

Local Open Scope string_scope.
Local Open Scope list_scope.

(** ** Python values and exceptions *)

Module Py.

Inductive exn : Type :=
| IndexError
| KeyError
| ConnectionClosed.

Inductive result (A : Type) : Type :=
| Ok (a : A)
| Raise (e : exn).
Arguments Ok {A} a.
Arguments Raise {A} e.

Definition bind {A B} (m : result A) (k : A -> result B) : result B :=
  match m with
  | Ok a => k a
  | Raise e => Raise e
  end.

(** [try: body  except Exception: handler] *)
Definition try_except {A} (body : result A) (handler : exn -> result A) : result A :=
  match body with
  | Ok a => Ok a
  | Raise e => handler e
  end.

Definition returns {A} (m : result A) : Prop := exists a, m = Ok a.

(** [seq[i]] for a non-negative constant index: IndexError out of range. *)
Definition getitem {A} (seq : list A) (i : nat) : result A :=
  match seq !! i with
  | Some a => Ok a
  | None => Raise IndexError
  end.

(** Python's [max(a, b)]: the first argument unless the second is greater. *)
Definition max (a b : Q) : Q := if Qlt_le_dec a b then b else a.

End Py.

Global Instance result_ret : MRet Py.result := fun _ a => Py.Ok a.
Global Instance result_bind : MBind Py.result := fun _ _ k m => Py.bind m k.

(** ** Landmarks *)

(** One MediaPipe landmark, as the code reads it ([getattr(lm, "visibility", None)]). *)
Record landmark : Type := Landmark {
  lm_x : Q;
  lm_y : Q;
  lm_z : Q;
  lm_visibility : option Q
}.

(** One entry of the list built by [landmarks_to_normalized_list]. *)
Record lm_entry : Type := LmEntry {
  e_id : nat;
  e_x : Q;
  e_y : Q;
  e_z : Q;
  e_visibility : option Q
}.

Definition landmarks_to_normalized_list (landmarks : list landmark) : list lm_entry :=
  imap (fun idx lm =>
          {| e_id := idx; e_x := lm_x lm; e_y := lm_y lm; e_z := lm_z lm;
             e_visibility := lm_visibility lm |}) landmarks.

Definition compute_mid_hip_z (landmarks : list landmark) : Py.result Q :=
  Py.try_except
    (a ← Py.getitem landmarks 23;
     b ← Py.getitem landmarks 24;
     mret ((lm_z a + lm_z b) / 2)%Q)
    (fun _ => Py.Ok 0%Q).


(** ** Dict objects and the heap *)

(** The values the payload dict holds. The list of landmark entries is built
    anew on every iteration and never mutated afterwards, so it is held by
    value. *)
Inductive value : Type :=
| VNone
| VFloat (q : Q)
| VInt (z : Z)
| VList (l : list lm_entry).

Definition is_none (v : value) : bool :=
  match v with VNone => true | _ => false end.

(** Object identities. *)
Definition loc := positive.

Abbreviation pydict := (gmap string value).
Abbreviation heap := (gmap loc (gmap string value)).

Definition deref (h : heap) (l : loc) : pydict := default ∅ (h !! l).

(** [d[k]]: KeyError when the key is missing. *)
Definition dict_getitem (d : pydict) (k : string) : Py.result value :=
  match d !! k with
  | Some v => Py.Ok v
  | None => Py.Raise Py.KeyError
  end.

(** [d.get(k)]: None when the key is missing. *)
Definition dict_get (d : pydict) (k : string) : value := default VNone (d !! k).

(** [obj[k] = v] on the dict object at [l]. *)
Definition setitem (l : loc) (k : string) (v : value) (h : heap) : heap :=
  <[l := <[k := v]> (deref h l)]> h.

(** A run of assignments on the dict object at [l], first to last. *)
Definition write_all (l : loc) (ops : list (string * value)) (h : heap) : heap :=
  foldl (fun h kv => setitem l kv.1 kv.2 h) h ops.

(** The dict a run of assignments leaves behind. *)
Definition assign_all (ops : list (string * value)) (d : pydict) : pydict :=
  foldl (fun d kv => <[kv.1 := kv.2]> d) d ops.

(** [dict(obj)]: a new dict object with the same keys and values. *)
Definition dict_copy (l : loc) (h : heap) : loc * heap :=
  let l' := fresh (dom h) in (l', <[l' := deref h l]> h).

(** ** The mailbox: [last_payload] and [get_payload] of [main] *)

(** [last_payload = {"timestamp": None, "landmarks": None}] *)
Definition initial_payload : pydict :=
  <["landmarks" := VNone]> (<["timestamp" := VNone]> ∅).

Definition get_payload (last_payload : loc) (h : heap) : Py.result (option loc * heap) :=
  v ← dict_getitem (deref h last_payload) "landmarks";
  if is_none v then mret (None, h)
  else let '(l', h') := dict_copy last_payload h in mret (Some l', h').

(** What a reader sees: the contents of the dict it was handed. *)
Definition read_contents (last_payload : loc) (h : heap) : Py.result (option pydict) :=
  match get_payload last_payload h with
  | Py.Ok (r, h') => Py.Ok (deref h' <$> r)
  | Py.Raise e => Py.Raise e
  end.

(** What a call returns when the stored payload is [d] and its [landmarks]
    is [v]. *)
Definition expected_read (d : pydict) (v : value) : option pydict :=
  if is_none v then None else Some d.

(** [n] calls of [get_payload] in a row, nothing else touching the heap. *)
Fixpoint read_many (last_payload : loc) (n : nat) (h : heap)
  : Py.result (list (option pydict) * heap) :=
  match n with
  | O => Py.Ok ([], h)
  | S n' =>
      match get_payload last_payload h with
      | Py.Ok (r, h1) =>
          match read_many last_payload n' h1 with
          | Py.Ok (rs, h2) => Py.Ok ((deref h1 <$> r) :: rs, h2)
          | Py.Raise e => Py.Raise e
          end
      | Py.Raise e => Py.Raise e
      end
  end.

(** ** Pacing *)

Definition TARGET_FPS : Q := 30.
Definition FRAME_DELAY : Q := (1 / TARGET_FPS)%Q.

(** The tail of a [camera_worker] iteration:
    [to_sleep = FRAME_DELAY - elapsed; if to_sleep > 0: time.sleep(to_sleep)].
    [None] is "no call of sleep". *)
Definition producer_pacing (elapsed : Q) : option Q :=
  let to_sleep := (FRAME_DELAY - elapsed)%Q in
  if Qlt_le_dec 0 to_sleep then Some to_sleep else None.

(** The tail of a [broadcast_loop] tick: the same test, with an [else] branch
    that sleeps for a millisecond. *)
Definition broadcast_pacing (elapsed : Q) : option Q :=
  let to_sleep := (FRAME_DELAY - elapsed)%Q in
  if Qlt_le_dec 0 to_sleep then Some to_sleep else Some (1 # 1000).

(** The time a pacing decision sleeps for. *)
Definition slept (p : option Q) : Q := default 0%Q p.

(** ** The producer: [camera_worker] *)

(** What the thread does that others can see. *)
Inductive cam_event : Type :=
| EStore (k : string) (v : value)   (* last_payload[k] = v *)
| ESleep (d : Q)                    (* time.sleep(d) *)
| ERelease.                         (* cap.release() *)

Record cam_state : Type := CamState {
  c_heap : heap;
  c_stop : bool;                    (* stop_event *)
  c_prev : Q;                       (* the local prev *)
  c_trace : list cam_event
}.

(** A frame as the loop uses it: its shape and what [pose.process] found. *)
Record frame : Type := Frame {
  f_w : Z;
  f_h : Z;
  f_pose : option (list landmark)   (* results.pose_landmarks *)
}.

(** What the outside world answers during one iteration. *)
Record iter_env : Type := IterEnv {
  stop_seen : bool;                 (* another thread has set stop_event *)
  t0 : Q;                           (* time.time() at line 85 *)
  cap_read : option frame;          (* cap.read(); None is ret = False *)
  t_stamp : Q;                      (* time.time() at line 103 *)
  t_fps : Q;                        (* time.time() at line 108 *)
  t_prev : Q;                       (* time.time() at line 127 *)
  t_end : Q;                        (* time.time() at line 130 *)
  key : Z                           (* cv2.waitKey(1) *)
}.

Inductive flow : Type := Continue | Break.
Inductive status : Type := Running | Exited.

(** State and exceptions of the thread. *)
Definition cam (A : Type) : Type := cam_state -> Py.result A * cam_state.

Global Instance cam_ret : MRet cam := fun _ a s => (Py.Ok a, s).
Global Instance cam_bind : MBind cam := fun _ _ k m s =>
  match m s with
  | (Py.Ok a, s') => k a s'
  | (Py.Raise e, s') => (Py.Raise e, s')
  end.

Definition lift {A} (r : Py.result A) : cam A := fun s => (r, s).

Definition emit (e : cam_event) : cam unit := fun s =>
  (Py.Ok tt, {| c_heap := c_heap s; c_stop := c_stop s; c_prev := c_prev s;
                c_trace := c_trace s ++ [e] |}).

Definition get_prev : cam Q := fun s => (Py.Ok (c_prev s), s).

Definition set_prev (t : Q) : cam unit := fun s =>
  (Py.Ok tt, {| c_heap := c_heap s; c_stop := c_stop s; c_prev := t;
                c_trace := c_trace s |}).

Definition stop_event_set : cam unit := fun s =>
  (Py.Ok tt, {| c_heap := c_heap s; c_stop := true; c_prev := c_prev s;
                c_trace := c_trace s |}).

Definition stop_event_is_set : cam bool := fun s => (Py.Ok (c_stop s), s).

(** The event is shared: another thread may have set it in the meantime. *)
Definition observe_stop (seen : bool) : cam unit :=
  if seen then stop_event_set else mret tt.

Definition time_sleep (d : Q) : cam unit := emit (ESleep d).

(** The assignments of the detection branch, lines 103 to 108, in order. *)
Definition detection_stores (env : iter_env) (prev : Q) (fr : frame)
    (normalized_landmarks : list lm_entry) (mid_hip_z : Q) : list (string * value) :=
  [ ("timestamp", VFloat (t_stamp env));
    ("landmarks", VList normalized_landmarks);
    ("image_w", VInt (f_w fr));
    ("image_h", VInt (f_h fr));
    ("mid_hip_z", VFloat mid_hip_z);
    ("fps", VFloat (1 / Py.max (1 # 10000) (t_fps env - prev))%Q) ].

(** The assignment of the [else] branch, line 110. *)
Definition no_detection_stores : list (string * value) :=
  [ ("landmarks", VNone) ].

(** Lines 97 to 110: what the iteration assigns to [last_payload]. *)
Definition iteration_stores (env : iter_env) (prev : Q) (fr : frame)
  : Py.result (list (string * value)) :=
  match f_pose fr with
  | Some lm_list =>
      mid_hip_z ← compute_mid_hip_z lm_list;
      mret (detection_stores env prev fr (landmarks_to_normalized_list lm_list) mid_hip_z)
  | None => mret no_detection_stores
  end.

(** [cv2.waitKey(1) & 0xFF == ord('q')] *)
Definition q_pressed (env : iter_env) : bool := (Z.land (key env) 255 =? 113)%Z.

Section Producer.

(** The dict object [main] shares with the thread. *)
Variable last_payload : loc.

Definition payload_setitem (kv : string * value) : cam unit := fun s =>
  (Py.Ok tt, {| c_heap := setitem last_payload kv.1 kv.2 (c_heap s);
                c_stop := c_stop s; c_prev := c_prev s;
                c_trace := c_trace s ++ [EStore kv.1 kv.2] |}).

Fixpoint store_all (ops : list (string * value)) : cam unit :=
  match ops with
  | [] => mret tt
  | kv :: rest => _ ← payload_setitem kv; store_all rest
  end.

Definition pace (p : option Q) : cam unit :=
  match p with
  | Some d => time_sleep d
  | None => mret tt
  end.

(** The body of the [while] loop, lines 85 to 138. *)
Definition camera_iteration (env : iter_env) : cam flow :=
  match cap_read env with
  | None => mret Break
  | Some fr =>
      prev ← get_prev;
      ops ← lift (iteration_stores env prev fr);
      _ ← store_all ops;
      _ ← set_prev (t_prev env);
      _ ← pace (producer_pacing (t_end env - t0 env)%Q);
      if q_pressed env
      then _ ← stop_event_set; mret Break
      else mret Continue
  end.

(** [while not stop_event.is_set(): ...] over the answers [envs]; [Running]
    when the answers run out before the loop exits. *)
Fixpoint camera_loop (envs : list iter_env) : cam status :=
  match envs with
  | [] => mret Running
  | env :: rest =>
      _ ← observe_stop (stop_seen env);
      stopped ← stop_event_is_set;
      if (stopped : bool) then mret Exited
      else
        fl ← camera_iteration env;
        match fl with
        | Break => mret Exited
        | Continue => camera_loop rest
        end
  end.

(** The [finally] block, lines 140 to 142. *)
Definition camera_finally : cam unit :=
  _ ← emit ERelease; stop_event_set.

(** [camera_worker]: [opened] is [cap.isOpened()], [t_start] the clock at
    line 82. The [finally] block runs when the loop is left, by [break], by
    the loop test or by an exception. *)
Definition camera_worker (opened : bool) (t_start : Q) (envs : list iter_env)
  : cam status := fun s =>
  if negb opened then (_ ← stop_event_set; mret Exited) s
  else
    match (_ ← set_prev t_start; camera_loop envs) s with
    | (Py.Ok Running, s') => (Py.Ok Running, s')
    | (Py.Ok Exited, s') => (_ ← camera_finally; mret Exited) s'
    | (Py.Raise e, s') => (_ ← camera_finally; lift (Py.Raise e)) s'
    end.

End Producer.

Definition store_events (ops : list (string * value)) : list cam_event :=
  (fun kv => EStore kv.1 kv.2) <$> ops.

Definition pace_events (p : option Q) : list cam_event :=
  match p with
  | Some d => [ESleep d]
  | None => []
  end.

(** Iterations one after the other, as long as the loop goes on. *)
Definition iterate (last_payload : loc) (envs : list iter_env) (st : cam_state) : cam_state :=
  foldl (fun s env => (camera_iteration last_payload env s).2) st envs.

(** An iteration that reads a frame in which the estimator finds nothing. *)
Definition no_detection (env : iter_env) : Prop :=
  exists fr, cap_read env = Some fr /\ f_pose fr = None.

(** The stores a trace holds, and how many of them assign [landmarks]. *)
Definition stores_of (tr : list cam_event) : list (string * value) :=
  omap (fun e => match e with EStore k v => Some (k, v) | _ => None end) tr.

Definition payload_updates (tr : list cam_event) : nat :=
  length (filter (fun kv => kv.1 = "landmarks") (stores_of tr)).

(** ** The two threads together *)

(** The camera thread assigns the fields of [last_payload] one statement at a
    time; the event-loop thread calls [get_payload], whose two statements are
    the test of line 240 and the copy of line 242. A schedule says whose turn
    it is; a turn runs one statement of that thread. *)
Inductive turn : Type := WriterTurn | ReaderTurn.

(** Where the reader is inside [get_payload]. *)
Inductive reader_pc : Type :=
| AtTest            (* before [if last_payload["landmarks"] is None] *)
| AtCopy.           (* the test failed; before [return dict(last_payload)] *)

(** Line 240: [last_payload["landmarks"] is None]. *)
Definition get_payload_test (last_payload : loc) (h : heap) : Py.result bool :=
  v ← dict_getitem (deref h last_payload) "landmarks";
  mret (is_none v).

Fixpoint interleave_from (last_payload : loc) (sched : list turn)
    (pending : list (string * value)) (pc : reader_pc) (h : heap)
  : list (Py.result (option pydict)) :=
  match sched with
  | [] => []
  | WriterTurn :: sched' =>
      match pending with
      | [] => interleave_from last_payload sched' [] pc h
      | kv :: rest =>
          interleave_from last_payload sched' rest pc (setitem last_payload kv.1 kv.2 h)
      end
  | ReaderTurn :: sched' =>
      match pc with
      | AtTest =>
          match get_payload_test last_payload h with
          | Py.Raise e => Py.Raise e :: interleave_from last_payload sched' pending AtTest h
          | Py.Ok true => Py.Ok None :: interleave_from last_payload sched' pending AtTest h
          | Py.Ok false => interleave_from last_payload sched' pending AtCopy h
          end
      | AtCopy =>
          let '(l', h') := dict_copy last_payload h in
          Py.Ok (Some (deref h' l')) :: interleave_from last_payload sched' pending AtTest h'
      end
  end.

(** The results of the reader's calls under a schedule, the reader being at
    the start of a call. *)
Definition interleave (last_payload : loc) (sched : list turn)
    (pending : list (string * value)) (h : heap) : list (Py.result (option pydict)) :=
  interleave_from last_payload sched pending AtTest h.

(** ** The registry and the connection handler *)

(** Connection identities. *)
Definition ws := nat.

(** [CONNECTED.add(ws)] on entry of [ws_handler]. *)
Definition ws_handler_enter (w : ws) (connected : gset ws) : gset ws :=
  {[w]} ∪ connected.

(** How the [async for] of [ws_handler] ends. *)
Inductive handler_end : Type :=
| PeerClosed            (* the iteration ends *)
| ClosedOK              (* ConnectionClosedOK *)
| ConnectionError.      (* any other exception *)

(** The [finally] of [ws_handler]: [CONNECTED.discard(ws)], whatever the end. *)
Definition ws_handler_exit (w : ws) (how : handler_end) (connected : gset ws) : gset ws :=
  match how with
  | PeerClosed | ClosedOK | ConnectionError => connected ∖ {[w]}
  end.

(** ** The broadcaster: [broadcast_loop] *)

(** What a connection does with [ws.send(message)]. *)
Inductive send_outcome : Type :=
| Sent                  (* the awaited send completes *)
| RaisesOnCall          (* the call itself raises *)
| FailsOnAwait.         (* the coroutine raises when awaited *)

Global Instance send_outcome_eq_dec : EqDecision send_outcome.
Proof. solve_decision. Defined.

Inductive bc_event : Type :=
| BDumps (payload : pydict) (message : string)   (* json.dumps(payload) *)
| BSendCall (w : ws) (message : string)          (* ws.send(message) is called *)
| BDelivered (w : ws) (message : string)         (* the awaited send completed *)
| BSleep (d : Q).                                (* asyncio.sleep(d) *)

Record bc_state : Type := BcState {
  CONNECTED : gset ws;
  b_trace : list bc_event
}.

(** What the outside world answers during one tick. *)
Record tick_env : Type := TickEnv {
  b_stop_seen : bool;               (* stop_event.is_set() at line 148 *)
  b_heap : heap;                    (* the shared heap at line 150 *)
  b_start : Q;                      (* time.time() at line 149 *)
  b_end : Q;                        (* time.time() at line 167 *)
  b_send : ws -> send_outcome;
  b_joined : gset ws;               (* handlers entered while the loop slept *)
  b_left : gset ws                  (* handlers left while the loop slept *)
}.

(** A coroutine object made by [ws.send(message)]. *)
Definition coro : Type := ws * string.

(** A step of the coroutine: how it ends and what it did, in order. *)
Definition traced (A : Type) : Type := (Py.result A * list bc_event)%type.

Global Instance traced_ret : MRet traced := fun _ a => (Py.Ok a, []).
Global Instance traced_bind : MBind traced := fun _ _ k m =>
  match m with
  | (Py.Ok a, evs) => ((k a).1, evs ++ (k a).2)
  | (Py.Raise e, evs) => (Py.Raise e, evs)
  end.

(** [try: body  except Exception: handler]: what the body did stays done. *)
Definition traced_try {A} (body : traced A) (handler : Py.exn -> traced A) : traced A :=
  match body with
  | (Py.Ok a, evs) => (Py.Ok a, evs)
  | (Py.Raise e, evs) => ((handler e).1, evs ++ (handler e).2)
  end.

(** [await asyncio.sleep(d)] *)
Definition asyncio_sleep (d : Q) : traced unit := (Py.Ok tt, [BSleep d]).

(** [ws.send(message)]: the call is made; it raises or gives a coroutine. *)
Definition ws_send (send : ws -> send_outcome) (w : ws) (message : string) : traced coro :=
  (match send w with
   | RaisesOnCall => Py.Raise Py.ConnectionClosed
   | Sent | FailsOnAwait => Py.Ok (w, message)
   end,
   [BSendCall w message]).

(** Awaiting the coroutine: the message is delivered, or the coroutine raises. *)
Definition await_send (send : ws -> send_outcome) (c : coro) : traced unit :=
  match send c.1 with
  | Sent => (Py.Ok tt, [BDelivered c.1 c.2])
  | RaisesOnCall | FailsOnAwait => (Py.Raise Py.ConnectionClosed, [])
  end.

(** Lines 159 to 163: [try: send_coros.append(ws.send(message)) except Exception: pass]. *)
Fixpoint collect_sends (send : ws -> send_outcome) (message : string)
    (webs : list ws) (send_coros : list coro) : traced (list coro) :=
  match webs with
  | [] => mret send_coros
  | w :: rest =>
      send_coros' ← traced_try
                      (c ← ws_send send w message; mret (send_coros ++ [c]))
                      (fun _ => mret send_coros);
      collect_sends send message rest send_coros'
  end.

(** [asyncio.gather] of [send_coros] with [return_exceptions=True]: every
    coroutine is awaited; an exception becomes that coroutine's result. *)
Fixpoint gather (send : ws -> send_outcome) (send_coros : list coro)
  : traced (list (Py.result unit)) :=
  match send_coros with
  | [] => mret []
  | c :: rest =>
      r ← traced_try (x ← await_send send c; mret (Py.Ok x))
                     (fun e => mret (Py.Raise e));
      rs ← gather send rest;
      mret (r :: rs)
  end.

Section Broadcast.

(** [json.dumps] *)
Variable dumps : pydict -> string.
(** The parameter [get_payload_fn] of [broadcast_loop]. *)
Variable get_payload_fn : heap -> Py.result (option loc * heap).

(** [json.dumps(payload)] *)
Definition json_dumps (payload : pydict) : traced string :=
  (Py.Ok (dumps payload), [BDumps payload (dumps payload)]).

(** Lines 155 to 165. *)
Definition fan_out (env : tick_env) (payload : pydict) (connected : gset ws)
  : traced unit :=
  message ← json_dumps payload;
  let webs := elements connected in
  if bool_decide (webs = []) then mret tt
  else
    send_coros ← collect_sends (b_send env) message webs [];
    if bool_decide (send_coros = []) then mret tt
    else
      _ ← gather (b_send env) send_coros;
      mret tt.

(** Lines 151 to 172: the two branches on the payload, then the pacing. *)
Definition tick_body (env : tick_env) (payload : option loc) (h : heap)
    (connected : gset ws) : traced unit :=
  _ ← match payload with
      | None => asyncio_sleep (1 # 1000)
      | Some p =>
          if is_none (dict_get (deref h p) "landmarks")
          then asyncio_sleep (1 # 1000)
          else fan_out env (deref h p) connected
      end;
  asyncio_sleep (slept (broadcast_pacing (b_end env - b_start env)%Q)).

(** One pass through the body of the [while] loop, lines 149 to 172. *)
Definition broadcast_tick (env : tick_env) (st : bc_state) : Py.result bc_state :=
  match get_payload_fn (b_heap env) with
  | Py.Raise e => Py.Raise e
  | Py.Ok (payload, h) =>
      match tick_body env payload h (CONNECTED st) with
      | (Py.Ok _, evs) =>
          Py.Ok {| CONNECTED := CONNECTED st; b_trace := b_trace st ++ evs |}
      | (Py.Raise e, _) => Py.Raise e
      end
  end.

(** Connection handlers run while the loop is suspended. *)
Definition handlers_ran (env : tick_env) (st : bc_state) : bc_state :=
  {| CONNECTED := (CONNECTED st ∪ b_joined env) ∖ b_left env;
     b_trace := b_trace st |}.

(** [while not stop_event.is_set(): ...] over the answers [envs]. *)
Fixpoint broadcast_loop (envs : list tick_env) (st : bc_state)
  : Py.result (status * bc_state) :=
  match envs with
  | [] => mret (Running, st)
  | env :: rest =>
      if b_stop_seen env then mret (Exited, st)
      else
        st' ← broadcast_tick env st;
        broadcast_loop rest (handlers_ran env st')
  end.

End Broadcast.

(** A tick that sends nothing. *)
Definition idle_events (env : tick_env) : list bc_event :=
  [BSleep (1 # 1000); BSleep (slept (broadcast_pacing (b_end env - b_start env)%Q))].

(** A tick that serializes [payload] and sends it to [connected]. *)
Definition fan_out_events (dumps : pydict -> string) (env : tick_env)
    (payload : pydict) (connected : gset ws) : list bc_event :=
  let message := dumps payload in
  BDumps payload message
    :: ((fun w => BSendCall w message) <$> elements connected)
    ++ ((fun w => BDelivered w message)
          <$> filter (fun w => b_send env w = Sent) (elements connected))
    ++ [BSleep (slept (broadcast_pacing (b_end env - b_start env)%Q))].

(** The messages a trace serialized, called [send] with, and delivered. *)
Definition dumped (tr : list bc_event) : list string :=
  omap (fun e => match e with BDumps _ m => Some m | _ => None end) tr.

Definition send_calls (tr : list bc_event) : list (ws * string) :=
  omap (fun e => match e with BSendCall w m => Some (w, m) | _ => None end) tr.

Definition delivered (tr : list bc_event) : list (ws * string) :=
  omap (fun e => match e with BDelivered w m => Some (w, m) | _ => None end) tr.

(** ** Sample inputs *)

Definition sample_landmark (z : Q) : landmark :=
  {| lm_x := 1 # 2; lm_y := 1 # 2; lm_z := z; lm_visibility := Some (9 # 10) |}.

Definition sample_pose : list landmark :=
  replicate 23 (sample_landmark 0) ++ [sample_landmark (1 # 4); sample_landmark (3 # 4)]
    ++ replicate 8 (sample_landmark 0).

Definition sample_pose_B : list landmark :=
  replicate 23 (sample_landmark 1) ++ [sample_landmark (1 # 2); sample_landmark (1 # 2)]
    ++ replicate 8 (sample_landmark 1).

Definition lp0 : loc := 1%positive.

Definition heap0 : heap := {[ lp0 := initial_payload ]}.

Definition st0 : cam_state :=
  {| c_heap := heap0; c_stop := false; c_prev := 10; c_trace := [] |}.

Definition frA : frame := {| f_w := 640; f_h := 480; f_pose := Some sample_pose |}.
Definition frB : frame := {| f_w := 1280; f_h := 720; f_pose := Some sample_pose_B |}.
Definition frN : frame := {| f_w := 640; f_h := 480; f_pose := None |}.

Definition envA : iter_env :=
  {| stop_seen := false; t0 := 10; cap_read := Some frA;
     t_stamp := 10 + (1 # 100); t_fps := 10 + (1 # 100); t_prev := 10 + (2 # 100);
     t_end := 10 + (2 # 100); key := (-1) |}.

Definition envB : iter_env :=
  {| stop_seen := false; t0 := 11; cap_read := Some frB;
     t_stamp := 11 + (1 # 100); t_fps := 11 + (1 # 100); t_prev := 11 + (2 # 100);
     t_end := 11 + (5 # 100); key := (-1) |}.

Definition envN : iter_env :=
  {| stop_seen := false; t0 := 12; cap_read := Some frN;
     t_stamp := 12; t_fps := 12; t_prev := 12 + (1 # 100);
     t_end := 12 + (1 # 100); key := (-1) |}.

Definition envF : iter_env :=
  {| stop_seen := false; t0 := 13; cap_read := None;
     t_stamp := 13; t_fps := 13; t_prev := 13; t_end := 13; key := (-1) |}.

Definition stores_or_nil (r : Py.result (list (string * value))) : list (string * value) :=
  match r with
  | Py.Ok ops => ops
  | Py.Raise _ => []
  end.

Definition opsA : list (string * value) :=
  stores_or_nil (iteration_stores envA (c_prev st0) frA).

Definition opsB : list (string * value) :=
  stores_or_nil (iteration_stores envB (t_prev envA) frB).

(** The writer completes A, makes the first two assignments of B, and the
    reader runs its call (test, then copy). *)
Definition torn_schedule : list turn :=
  replicate 6 WriterTurn ++ [WriterTurn; WriterTurn; ReaderTurn; ReaderTurn].

(** The writer makes the first two assignments of the first write ever, and
    the reader runs its call (test, then copy). *)
Definition partial_schedule : list turn :=
  [WriterTurn; WriterTurn; ReaderTurn; ReaderTurn].

(** The producer once iteration A has run, and the heap it leaves. *)
Definition stA : cam_state := iterate lp0 [envA] st0.
Definition heapA : heap := c_heap stA.

(** The copy a read of [heapA] makes, and the heap that holds it. *)
Definition copyA : loc := fresh (dom heapA).
Definition heapA' : heap := <[copyA := deref heapA lp0]> heapA.

Definition sample_registry : gset ws := {[ 1; 2; 3 ]}.

Definition one_broken (w : ws) : send_outcome :=
  if decide (w = 2) then FailsOnAwait else Sent.

Definition sample_dumps (d : pydict) : string := "payload".

Definition sample_tick : tick_env :=
  {| b_stop_seen := false; b_heap := heapA; b_start := 20; b_end := 20 + (1 # 100);
     b_send := one_broken; b_joined := ∅; b_left := ∅ |}.

Definition sample_bc : bc_state := {| CONNECTED := sample_registry; b_trace := [] |}.

(** ** The server: [start_websocket_server] and [main] *)

(** The keys of a payload that holds a detection. *)
Definition snapshot_keys : gset string :=
  {[ "timestamp"; "landmarks"; "image_w"; "image_h"; "mid_hip_z"; "fps" ]}.

(** What the payload dict looks like between two iterations of the producer:
    it has a [landmarks] entry, no key besides the six, and all six once
    [landmarks] is not None. *)
Definition payload_wf (d : pydict) : Prop :=
  is_Some (d !! "landmarks") /\
  dom d ⊆ snapshot_keys /\
  (d !! "landmarks" ≠ Some VNone -> dom d = snapshot_keys).









(** The sleeps of a producer trace and of a broadcaster trace. *)
Definition cam_sleeps (tr : list cam_event) : list Q :=
  omap (fun e => match e with ESleep d => Some d | _ => None end) tr.

Definition bc_sleeps (tr : list bc_event) : list Q :=
  omap (fun e => match e with BSleep d => Some d | _ => None end) tr.

Definition releases (tr : list cam_event) : nat :=
  length (omap (fun e => match e with ERelease => Some tt | _ => None end) tr).

(** The [fps] field of an iteration, line 108. *)
Definition fps_of (env : iter_env) (prev : Q) : Q :=
  (1 / Py.max (1 # 10000) (t_fps env - prev))%Q.

(** More sample inputs. *)
Definition envQ : iter_env :=
  {| stop_seen := false; t0 := 14; cap_read := Some frA;
     t_stamp := 14; t_fps := 14; t_prev := 14; t_end := 14; key := 113 |}.


Definition stN : cam_state := (camera_iteration lp0 envN stA).2.

Definition idle_tick : tick_env :=
  {| b_stop_seen := false; b_heap := c_heap stN; b_start := 22; b_end := 22 + (1 # 20);
     b_send := one_broken; b_joined := ∅; b_left := ∅ |}.

Definition stopped_st0 : cam_state :=
  {| c_heap := heap0; c_stop := true; c_prev := 10; c_trace := [] |}.

Definition stop_tick : tick_env :=
  {| b_stop_seen := true; b_heap := heapA; b_start := 21; b_end := 21;
     b_send := one_broken; b_joined := ∅; b_left := ∅ |}.

(** * Properties *)

(** ** [compute_mid_hip_z] *)

Lemma getitem_lookup {A} (seq : list A) (i : nat) (a : A) :
  seq !! i = Some a -> Py.getitem seq i = Py.Ok a.
Proof. unfold Py.getitem. by intros ->. Qed.

Lemma getitem_out_of_range {A} (seq : list A) (i : nat) :
  length seq <= i -> Py.getitem seq i = Py.Raise Py.IndexError.
Proof. intros Hlen. unfold Py.getitem. by rewrite (lookup_ge_None_2 seq i). Qed.

Lemma compute_mid_hip_z_returns (landmarks : list landmark) :
  Py.returns (compute_mid_hip_z landmarks).
Proof.
  unfold compute_mid_hip_z, Py.getitem.
  destruct (landmarks !! 23) as [a|]; [|by eexists].
  destruct (landmarks !! 24) as [b|]; by eexists.
Qed.

(** C7: the derived scalar is the mean of the z components at indices 23 and
    24 when the sequence has them, it is 0.0 when the sequence is shorter
    than 25 elements, and the computation never raises. *)
Theorem compute_mid_hip_z_spec (landmarks : list landmark) :
  Py.returns (compute_mid_hip_z landmarks) /\
  (forall a b, landmarks !! 23 = Some a -> landmarks !! 24 = Some b ->
     compute_mid_hip_z landmarks = Py.Ok ((lm_z a + lm_z b) / 2)%Q) /\
  (25 <= length landmarks ->
     exists a b, landmarks !! 23 = Some a /\ landmarks !! 24 = Some b) /\
  (length landmarks < 25 -> compute_mid_hip_z landmarks = Py.Ok 0%Q).
Proof.
  split; [apply compute_mid_hip_z_returns|]. split; [|split].
  - intros a b Ha Hb. unfold compute_mid_hip_z.
    by rewrite (getitem_lookup _ _ _ Ha), (getitem_lookup _ _ _ Hb).
  - intros Hlen.
    destruct (lookup_lt_is_Some_2 landmarks 23) as [a Ha]; [lia|].
    destruct (lookup_lt_is_Some_2 landmarks 24) as [b Hb]; [lia|].
    by exists a, b.
  - intros Hlen. unfold compute_mid_hip_z.
    destruct (Py.getitem landmarks 23) as [a|e] eqn:H23; [|done].
    rewrite getitem_out_of_range; [done|lia].
Qed.

Lemma compute_mid_hip_z_spec_witness :
  compute_mid_hip_z sample_pose = Py.Ok (((1 # 4) + (3 # 4)) / 2)%Q /\
  compute_mid_hip_z (replicate 24 (sample_landmark 1)) = Py.Ok 0%Q.
Proof.
  split.
  - apply (proj1 (proj2 (compute_mid_hip_z_spec sample_pose))
             (sample_landmark (1 # 4)) (sample_landmark (3 # 4))); reflexivity.
  - apply (proj2 (proj2 (proj2 (compute_mid_hip_z_spec (replicate 24 (sample_landmark 1)))))).
    simpl. lia.
Defined.

(** ** Pacing *)

Lemma producer_pacing_under (elapsed : Q) :
  (elapsed < FRAME_DELAY)%Q ->
  producer_pacing elapsed = Some (FRAME_DELAY - elapsed)%Q.
Proof.
  intros H. unfold producer_pacing; cbv zeta.
  destruct (Qlt_le_dec 0 (FRAME_DELAY - elapsed)) as [_|Hle]; [done|lra].
Qed.

Lemma producer_pacing_over (elapsed : Q) :
  (FRAME_DELAY <= elapsed)%Q -> producer_pacing elapsed = None.
Proof.
  intros H. unfold producer_pacing; cbv zeta.
  destruct (Qlt_le_dec 0 (FRAME_DELAY - elapsed)) as [Hlt|_]; [lra|done].
Qed.

Lemma broadcast_pacing_under (elapsed : Q) :
  (elapsed < FRAME_DELAY)%Q ->
  broadcast_pacing elapsed = Some (FRAME_DELAY - elapsed)%Q.
Proof.
  intros H. unfold broadcast_pacing; cbv zeta.
  destruct (Qlt_le_dec 0 (FRAME_DELAY - elapsed)) as [_|Hle]; [done|lra].
Qed.

Lemma broadcast_pacing_over (elapsed : Q) :
  (FRAME_DELAY <= elapsed)%Q -> broadcast_pacing elapsed = Some (1 # 1000).
Proof.
  intros H. unfold broadcast_pacing; cbv zeta.
  destruct (Qlt_le_dec 0 (FRAME_DELAY - elapsed)) as [Hlt|_]; [lra|done].
Qed.

(** ** The heap *)

Section HeapFacts.
Implicit Types (h : heap) (l : loc) (d : pydict) (k : string) (v : value).

Lemma deref_lookup h l d : h !! l = Some d -> deref h l = d.
Proof. unfold deref. by intros ->. Qed.

Lemma deref_insert_eq h l d : deref (<[l := d]> h) l = d.
Proof. unfold deref. by rewrite lookup_insert_eq. Qed.

Lemma deref_insert_ne h l l' d : l ≠ l' -> deref (<[l := d]> h) l' = deref h l'.
Proof. intros Hne. unfold deref. by rewrite lookup_insert_ne. Qed.

Lemma deref_setitem_eq h l k v : deref (setitem l k v h) l = <[k := v]> (deref h l).
Proof. apply deref_insert_eq. Qed.

Lemma lookup_setitem_ne h l l' k v : l ≠ l' -> setitem l k v h !! l' = h !! l'.
Proof. intros Hne. unfold setitem. by rewrite lookup_insert_ne. Qed.

Lemma lookup_write_all_ne h l l' ops : l ≠ l' -> write_all l ops h !! l' = h !! l'.
Proof.
  intros Hne. revert h. induction ops as [|kv ops IH]; intros h; [done|].
  simpl. rewrite IH. by apply lookup_setitem_ne.
Qed.

Lemma deref_write_all h l ops :
  deref (write_all l ops h) l = assign_all ops (deref h l).
Proof.
  revert h. induction ops as [|kv ops IH]; intros h; [done|].
  simpl. rewrite IH. by rewrite deref_setitem_eq.
Qed.

Lemma assign_all_untouched ops d k :
  k ∉ ops.*1 -> assign_all ops d !! k = d !! k.
Proof.
  revert d. induction ops as [|[k' v'] ops IH]; intros d Hk; [done|].
  simpl in *. apply not_elem_of_cons in Hk as [Hne Hk].
  rewrite IH by done. by rewrite lookup_insert_ne.
Qed.

Lemma assign_all_stored ops d k v :
  NoDup ops.*1 -> (k, v) ∈ ops -> assign_all ops d !! k = Some v.
Proof.
  revert d. induction ops as [|[k' v'] ops IH]; intros d Hnd Hin.
  - by apply elem_of_nil in Hin.
  - simpl in *. apply NoDup_cons in Hnd as [Hk' Hnd].
    apply elem_of_cons in Hin as [Heq|Hin].
    + injection Heq as -> ->.
      rewrite assign_all_untouched by done. by rewrite lookup_insert_eq.
    + by apply IH.
Qed.

Lemma fresh_unused h : h !! fresh (dom h) = None.
Proof. apply not_elem_of_dom, is_fresh. Qed.

Lemma deref_key_allocated h l k v : deref h l !! k = Some v -> is_Some (h !! l).
Proof.
  unfold deref. destruct (h !! l) as [d|]; [by eexists|].
  simpl. by rewrite lookup_empty.
Qed.

End HeapFacts.

(** ** The mailbox *)

Section MailboxFacts.
Variable last_payload : loc.
Implicit Types (h : heap) (d : pydict) (v : value).

Lemma get_payload_missing h :
  deref h last_payload !! "landmarks" = None ->
  get_payload last_payload h = Py.Raise Py.KeyError.
Proof. intros H. unfold get_payload, dict_getitem. by rewrite H. Qed.

Lemma get_payload_empty h :
  deref h last_payload !! "landmarks" = Some VNone ->
  get_payload last_payload h = Py.Ok (None, h).
Proof. intros H. unfold get_payload, dict_getitem. by rewrite H. Qed.

Lemma get_payload_copy h v :
  deref h last_payload !! "landmarks" = Some v -> is_none v = false ->
  get_payload last_payload h =
    Py.Ok (Some (fresh (dom h)), <[fresh (dom h) := deref h last_payload]> h).
Proof.
  intros H Hv. unfold get_payload, dict_getitem. rewrite H. simpl. by rewrite Hv.
Qed.

(** A call leaves every dict object of the heap as it was. *)
Lemma get_payload_frame h r h' :
  get_payload last_payload h = Py.Ok (r, h') -> h ⊆ h'.
Proof.
  unfold get_payload, dict_getitem.
  destruct (deref h last_payload !! "landmarks") as [v|]; [|done].
  simpl. destruct (is_none v).
  - by intros [= <- <-].
  - intros [= <- <-]. apply insert_subseteq, fresh_unused.
Qed.

Lemma deref_copy_other h d l :
  is_Some (h !! l) -> deref (<[fresh (dom h) := d]> h) l = deref h l.
Proof.
  intros [d' Hl]. apply deref_insert_ne. intros <-.
  by rewrite fresh_unused in Hl.
Qed.

Lemma read_contents_spec h v :
  deref h last_payload !! "landmarks" = Some v ->
  read_contents last_payload h = Py.Ok (expected_read (deref h last_payload) v).
Proof.
  intros H. unfold read_contents, expected_read.
  destruct (is_none v) eqn:Hv.
  - destruct v; try done. by rewrite get_payload_empty.
  - rewrite (get_payload_copy h v) by done. simpl. by rewrite deref_insert_eq.
Qed.

Lemma read_many_spec n h v :
  deref h last_payload !! "landmarks" = Some v ->
  exists h',
    read_many last_payload n h =
      Py.Ok (replicate n (expected_read (deref h last_payload) v), h') /\
    h ⊆ h' /\ deref h' last_payload = deref h last_payload.
Proof.
  revert h. induction n as [|n IH]; intros h H.
  - exists h. by simpl.
  - simpl. unfold expected_read in *. destruct (is_none v) eqn:Hv.
    + destruct v; try done. rewrite get_payload_empty by done.
      destruct (IH h H) as (h' & -> & Hsub & Hd). exists h'. by simpl.
    + rewrite (get_payload_copy h v) by done.
      set (h1 := <[fresh (dom h) := deref h last_payload]> h).
      assert (Hd1 : deref h1 last_payload = deref h last_payload)
        by (apply deref_copy_other; by eapply deref_key_allocated).
      destruct (IH h1) as (h' & -> & Hsub & Hd); [by rewrite Hd1|].
      exists h'. rewrite Hd1. split; [|split].
      * simpl. unfold h1 at 1. by rewrite deref_insert_eq.
      * etrans; [|exact Hsub]. apply insert_subseteq, fresh_unused.
      * by rewrite Hd.
Qed.

End MailboxFacts.

(** C6: [get_payload] peeks. A call returns the current contents and leaves
    every dict object of the heap, [last_payload] among them, as it was; any
    number of calls in a row return the same contents. *)
Theorem get_payload_peek (last_payload : loc) (h : heap) (n : nat) (v : value) :
  deref h last_payload !! "landmarks" = Some v ->
  exists r h',
    read_contents last_payload h = Py.Ok r /\
    read_many last_payload n h = Py.Ok (replicate n r, h') /\
    h ⊆ h' /\
    deref h' last_payload = deref h last_payload.
Proof.
  intros H.
  destruct (read_many_spec last_payload n h v H) as (h' & Hmany & Hsub & Hd).
  exists (expected_read (deref h last_payload) v), h'.
  split; [by apply read_contents_spec|done].
Qed.

(** C10: [get_payload] returns None exactly when the stored [landmarks] is
    None; otherwise it returns a new dict object holding the keys and values
    of the stored payload. The payload [main] starts with and a payload whose
    last write was a no-detection both read as None. *)
Theorem get_payload_none_iff (last_payload : loc) (h : heap) (v : value) :
  deref h last_payload !! "landmarks" = Some v ->
  ((exists h', get_payload last_payload h = Py.Ok (None, h')) <-> v = VNone) /\
  (v ≠ VNone ->
     exists l, h !! l = None /\
       get_payload last_payload h = Py.Ok (Some l, <[l := deref h last_payload]> h)) /\
  read_contents last_payload (<[last_payload := initial_payload]> h) = Py.Ok None /\
  read_contents last_payload (setitem last_payload "landmarks" VNone h) = Py.Ok None.
Proof.
  intros H. split; [|split; [|split]].
  - split.
    + intros [h' Hget]. destruct v; try done;
        by rewrite (get_payload_copy last_payload h _ H) in Hget.
    + intros ->. exists h. by apply get_payload_empty.
  - intros Hv. exists (fresh (dom h)). split; [apply fresh_unused|].
    apply (get_payload_copy last_payload h v H). by destruct v.
  - rewrite (read_contents_spec last_payload _ VNone); [done|].
    by rewrite deref_insert_eq.
  - rewrite (read_contents_spec last_payload _ VNone); [done|].
    rewrite deref_setitem_eq. by rewrite lookup_insert_eq.
Qed.

(** ** The producer *)

Section ProducerFacts.
Variable last_payload : loc.

Lemma store_all_run ops s :
  store_all last_payload ops s =
    (Py.Ok tt, {| c_heap := write_all last_payload ops (c_heap s);
                  c_stop := c_stop s; c_prev := c_prev s;
                  c_trace := c_trace s ++ store_events ops |}).
Proof.
  revert s. induction ops as [|kv ops IH]; intros [h st pv tr]; simpl.
  - unfold mret, cam_ret. by rewrite app_nil_r.
  - unfold mbind, cam_bind, payload_setitem. simpl. rewrite IH. simpl.
    by rewrite <- app_assoc.
Qed.

Lemma iteration_stores_returns env prev fr :
  exists ops, iteration_stores env prev fr = Py.Ok ops /\
    match f_pose fr with
    | Some lm_list =>
        exists mid_hip_z, compute_mid_hip_z lm_list = Py.Ok mid_hip_z /\
          ops = detection_stores env prev fr (landmarks_to_normalized_list lm_list) mid_hip_z
    | None => ops = no_detection_stores
    end.
Proof.
  unfold iteration_stores. destruct (f_pose fr) as [lm_list|].
  - destruct (compute_mid_hip_z_returns lm_list) as [m Hm]. rewrite Hm.
    eexists. split; [done|]. by exists m.
  - by eexists.
Qed.

Lemma camera_iteration_read_failed env st :
  cap_read env = None -> camera_iteration last_payload env st = (Py.Ok Break, st).
Proof. intros H. unfold camera_iteration. by rewrite H. Qed.

Lemma camera_iteration_run env fr ops st :
  cap_read env = Some fr ->
  iteration_stores env (c_prev st) fr = Py.Ok ops ->
  camera_iteration last_payload env st =
    (Py.Ok (if q_pressed env then Break else Continue),
     {| c_heap := write_all last_payload ops (c_heap st);
        c_stop := c_stop st || q_pressed env;
        c_prev := t_prev env;
        c_trace := c_trace st ++ store_events ops
                     ++ pace_events (producer_pacing (t_end env - t0 env)%Q) |}).
Proof.
  intros Hread Hops. unfold camera_iteration. rewrite Hread.
  unfold mbind, cam_bind, get_prev, lift. rewrite Hops, store_all_run.
  unfold set_prev. simpl.
  destruct (producer_pacing (t_end env - t0 env)) as [d|]; simpl;
    destruct (q_pressed env); simpl; unfold mret, cam_ret;
    rewrite ?orb_true_r, ?orb_false_r, ?app_nil_r, <- ?app_assoc; done.
Qed.

Lemma camera_loop_app pre rest s s1 :
  camera_loop last_payload pre s = (Py.Ok Running, s1) ->
  camera_loop last_payload (pre ++ rest) s = camera_loop last_payload rest s1.
Proof.
  revert s. induction pre as [|env pre IH]; intros s; simpl.
  - by intros [= ->].
  - unfold mbind, cam_bind.
    destruct (observe_stop (stop_seen env) s) as [[[]|e] s0]; [|done].
    unfold stop_event_is_set. destruct (c_stop s0); [done|].
    destruct (camera_iteration last_payload env s0) as [[[|]|e] s2]; try done.
    apply IH.
Qed.

End ProducerFacts.

Section ProducerClaims.
Variable last_payload : loc.

Lemma detection_stores_keys env prev fr nl m :
  (detection_stores env prev fr nl m).*1 =
    ["timestamp"; "landmarks"; "image_w"; "image_h"; "mid_hip_z"; "fps"].
Proof. reflexivity. Qed.

Lemma detection_stores_NoDup env prev fr nl m :
  NoDup (detection_stores env prev fr nl m).*1.
Proof. rewrite detection_stores_keys. by compute_done. Qed.

Lemma no_detection_iteration env st :
  no_detection env ->
  c_heap ((camera_iteration last_payload env st).2) =
    setitem last_payload "landmarks" VNone (c_heap st).
Proof.
  intros (fr & Hread & Hpose).
  rewrite (camera_iteration_run last_payload env fr no_detection_stores); [done|done|].
  unfold iteration_stores. by rewrite Hpose.
Qed.

Lemma no_detection_iterate envs st k :
  Forall no_detection envs -> k ≠ "landmarks" ->
  deref (c_heap (iterate last_payload envs st)) last_payload !! k =
    deref (c_heap st) last_payload !! k.
Proof.
  intros Hall Hk. revert st.
  induction Hall as [|env envs Henv _ IH]; intros st; [done|].
  unfold iterate in *. simpl. rewrite IH.
  rewrite no_detection_iteration by done.
  rewrite deref_setitem_eq. by rewrite lookup_insert_ne.
Qed.

(** C9: an iteration without a detection assigns [landmarks] (to None) and
    nothing else; every other field keeps its value, so that after any
    number of such iterations it still holds what the last iteration with a
    detection stored. *)
Theorem no_detection_keeps_fields env st :
  no_detection env ->
  let st' := (camera_iteration last_payload env st).2 in
  (exists fl, (camera_iteration last_payload env st).1 = Py.Ok fl) /\
  stores_of (c_trace st') = stores_of (c_trace st) ++ [("landmarks", VNone)] /\
  deref (c_heap st') last_payload !! "landmarks" = Some VNone /\
  (forall k, k ≠ "landmarks" ->
     deref (c_heap st') last_payload !! k = deref (c_heap st) last_payload !! k) /\
  (forall envD frD lmsD opsD envs k v,
     cap_read envD = Some frD -> f_pose frD = Some lmsD ->
     iteration_stores envD (c_prev st) frD = Py.Ok opsD ->
     Forall no_detection envs ->
     (k, v) ∈ opsD -> k ≠ "landmarks" ->
     deref (c_heap (iterate last_payload (envD :: envs) st)) last_payload !! k = Some v).
Proof.
  intros Hnd st'. pose proof Hnd as (fr & Hread & Hpose).
  assert (Hops : iteration_stores env (c_prev st) fr = Py.Ok no_detection_stores)
    by (unfold iteration_stores; by rewrite Hpose).
  pose proof (camera_iteration_run last_payload env fr _ st Hread Hops) as Hrun.
  subst st'. split; [|split; [|split; [|split]]].
  - rewrite Hrun. by eexists.
  - rewrite Hrun. simpl. unfold stores_of. rewrite !omap_app. simpl.
    by destruct (producer_pacing _); simpl; rewrite ?app_nil_r.
  - rewrite no_detection_iteration by done.
    rewrite deref_setitem_eq. by rewrite lookup_insert_eq.
  - intros k Hk. rewrite no_detection_iteration by done.
    rewrite deref_setitem_eq. by rewrite lookup_insert_ne.
  - intros envD frD lmsD opsD envs k v HreadD HposeD HopsD Hall Hin Hk.
    change (iterate last_payload (envD :: envs) st)
      with (iterate last_payload envs ((camera_iteration last_payload envD st).2)).
    rewrite no_detection_iterate by done.
    rewrite (camera_iteration_run last_payload envD frD opsD) by done. simpl.
    rewrite deref_write_all. apply assign_all_stored; [|done].
    unfold iteration_stores in HopsD. rewrite HposeD in HopsD.
    destruct (compute_mid_hip_z lmsD) as [m|e]; [|done].
    injection HopsD as <-. apply detection_stores_NoDup.
Qed.

Lemma stores_of_app tr1 tr2 : stores_of (tr1 ++ tr2) = stores_of tr1 ++ stores_of tr2.
Proof. apply omap_app. Qed.

Lemma stores_of_store_events ops : stores_of (store_events ops) = ops.
Proof.
  induction ops as [|[k v] ops IH]; [done|].
  unfold stores_of, store_events in *. simpl. f_equal. exact IH.
Qed.

Lemma stores_of_pace_events p : stores_of (pace_events p) = [].
Proof. by destruct p. Qed.

Lemma payload_updates_app tr1 tr2 :
  payload_updates (tr1 ++ tr2) = payload_updates tr1 + payload_updates tr2.
Proof.
  unfold payload_updates. by rewrite stores_of_app, filter_app, length_app.
Qed.

Lemma iteration_stores_one_update env prev fr ops :
  iteration_stores env prev fr = Py.Ok ops ->
  length (filter (fun kv => kv.1 = "landmarks") ops) = 1.
Proof.
  unfold iteration_stores. destruct (f_pose fr) as [lm_list|].
  - destruct (compute_mid_hip_z lm_list) as [m|e]; [|done].
    by intros [= <-].
  - by intros [= <-].
Qed.

(** C5: a write replaces what the payload held. After the writes of two
    iterations A then B, every read returns the fields B stored (None when
    B had no detection), whatever A stored. *)
Theorem mailbox_last_write_wins envA envB frA frB st n :
  cap_read envA = Some frA -> cap_read envB = Some frB ->
  exists opsB r h',
    iteration_stores envB (t_prev envA) frB = Py.Ok opsB /\
    read_many last_payload n (c_heap (iterate last_payload [envA; envB] st))
      = Py.Ok (replicate n r, h') /\
    match f_pose frB with
    | Some _ => exists d, r = Some d /\ forall k v, (k, v) ∈ opsB -> d !! k = Some v
    | None => r = None
    end.
Proof.
  intros HA HB.
  destruct (iteration_stores_returns envA (c_prev st) frA) as (opsA & HopsA & _).
  destruct (iteration_stores_returns envB (t_prev envA) frB) as (opsB & HopsB & Hshape).
  unfold iterate. simpl.
  rewrite (camera_iteration_run last_payload envA frA opsA st HA HopsA). simpl.
  rewrite (camera_iteration_run last_payload envB frB opsB) by done. simpl.
  set (h := write_all last_payload opsA (c_heap st)).
  exists opsB. destruct (f_pose frB) as [lmsB|].
  - destruct Hshape as (m & _ & ->).
    set (ops := detection_stores envB (t_prev envA) frB
                  (landmarks_to_normalized_list lmsB) m).
    assert (Hstored : forall k v, (k, v) ∈ ops ->
              deref (write_all last_payload ops h) last_payload !! k = Some v).
    { intros k v Hin. rewrite deref_write_all.
      apply assign_all_stored; [apply detection_stores_NoDup|done]. }
    destruct (read_many_spec last_payload n (write_all last_payload ops h)
                (VList (landmarks_to_normalized_list lmsB))) as (h' & Hmany & _).
    { apply Hstored. unfold ops, detection_stores. set_solver. }
    eexists _, h'. split; [done|]. split; [exact Hmany|].
    eexists. split; [done|]. exact Hstored.
  - subst opsB.
    destruct (read_many_spec last_payload n
                (write_all last_payload no_detection_stores h) VNone)
      as (h' & Hmany & _).
    { simpl. rewrite deref_setitem_eq. by rewrite lookup_insert_eq. }
    by eexists _, h'.
Qed.

(** C8: an iteration whose read fails writes nothing and ends the loop, and
    the worker then sets the stop event itself; so does a worker whose
    camera does not open. An iteration whose read succeeds makes the
    assignments of exactly one payload update. *)
Theorem read_failure_exits :
  (forall env st,
     cap_read env = None ->
     camera_iteration last_payload env st = (Py.Ok Break, st)) /\
  (forall t_start pre env post s s1,
     camera_loop last_payload pre ((set_prev t_start s).2) = (Py.Ok Running, s1) ->
     c_stop s1 = false -> stop_seen env = false -> cap_read env = None ->
     exists s',
       camera_worker last_payload true t_start (pre ++ env :: post) s
         = (Py.Ok Exited, s') /\
       c_stop s' = true /\
       c_heap s' = c_heap s1 /\
       stores_of (c_trace s') = stores_of (c_trace s1)) /\
  (forall t_start envs s,
     exists s',
       camera_worker last_payload false t_start envs s = (Py.Ok Exited, s') /\
       c_stop s' = true /\ c_heap s' = c_heap s /\ c_trace s' = c_trace s) /\
  (forall env fr st,
     cap_read env = Some fr ->
     exists ops fl st',
       iteration_stores env (c_prev st) fr = Py.Ok ops /\
       camera_iteration last_payload env st = (Py.Ok fl, st') /\
       c_heap st' = write_all last_payload ops (c_heap st) /\
       stores_of (c_trace st') = stores_of (c_trace st) ++ ops /\
       payload_updates (c_trace st') = S (payload_updates (c_trace st))).
Proof.
  split; [|split; [|split]].
  - apply camera_iteration_read_failed.
  - intros t_start pre env post s s1 Hpre Hstop Hseen Hread.
    unfold camera_worker. simpl. unfold mbind at 1, cam_bind at 1.
    change (set_prev t_start s) with (Py.Ok tt, (set_prev t_start s).2).
    cbv beta iota.
    rewrite (camera_loop_app last_payload pre (env :: post) _ s1 Hpre).
    simpl. rewrite Hseen. unfold mbind, cam_bind. simpl. rewrite Hstop.
    rewrite camera_iteration_read_failed by done.
    eexists. split; [reflexivity|]. simpl. unfold stores_of.
    rewrite omap_app. simpl. by rewrite app_nil_r.
  - intros t_start envs s. unfold camera_worker. simpl. by eexists.
  - intros env fr st Hread.
    destruct (iteration_stores_returns env (c_prev st) fr) as (ops & Hops & _).
    exists ops. eexists _, _.
    split; [done|].
    split; [exact (camera_iteration_run last_payload env fr ops st Hread Hops)|]. simpl.
    split; [done|]. split.
    + by rewrite !stores_of_app, stores_of_store_events, stores_of_pace_events, app_nil_r.
    + rewrite !payload_updates_app. unfold payload_updates at 2 3.
      rewrite stores_of_store_events, stores_of_pace_events.
      rewrite (iteration_stores_one_update _ _ _ _ Hops). simpl. lia.
Qed.

End ProducerClaims.

(** ** The broadcaster *)

Section BroadcastFacts.
Variable dumps : pydict -> string.
Variable get_payload_fn : heap -> Py.result (option loc * heap).

Lemma collect_sends_run send message webs send_coros :
  collect_sends send message webs send_coros =
    (Py.Ok (send_coros ++
              ((fun w => (w, message)) <$> filter (fun w => send w ≠ RaisesOnCall) webs)),
     (fun w => BSendCall w message) <$> webs).
Proof.
  revert send_coros. induction webs as [|w webs IH]; intros send_coros; simpl.
  - unfold mret, traced_ret. by rewrite app_nil_r.
  - rewrite filter_cons. unfold mbind, traced_bind, traced_try, ws_send.
    case_decide as Hd; destruct (send w) eqn:Hw;
      try congruence; try (exfalso; apply Hd; congruence);
      simpl; rewrite IH; simpl; by rewrite <- ?app_assoc.
Qed.

Lemma gather_run send send_coros :
  gather send send_coros =
    (Py.Ok ((fun c => (await_send send c).1) <$> send_coros),
     (fun c => BDelivered c.1 c.2) <$> filter (fun c => send c.1 = Sent) send_coros).
Proof.
  induction send_coros as [|c rest IH]; [done|].
  simpl. rewrite filter_cons. unfold mbind, traced_bind, traced_try, await_send.
  rewrite IH. case_decide as Hs; destruct (send c.1) eqn:Hc; try congruence;
    simpl; by rewrite app_nil_r.
Qed.

Lemma delivered_of_collected (send : ws -> send_outcome) (message : string) (webs : list ws) :
  (fun c : coro => BDelivered c.1 c.2)
    <$> filter (fun c : coro => send c.1 = Sent)
          ((fun w => (w, message)) <$> filter (fun w => send w ≠ RaisesOnCall) webs)
  = (fun w => BDelivered w message) <$> filter (fun w => send w = Sent) webs.
Proof.
  induction webs as [|w webs IH]; [done|].
  rewrite !filter_cons.
  case_decide as Hcall; case_decide as Hsent; try congruence.
  - simpl. rewrite filter_cons. simpl. case_decide; [|done]. simpl. f_equal. exact IH.
  - simpl. rewrite filter_cons. simpl. case_decide; [done|]. exact IH.
Qed.

Lemma fan_out_run env payload connected :
  fan_out dumps env payload connected =
    (Py.Ok tt,
     BDumps payload (dumps payload)
       :: ((fun w => BSendCall w (dumps payload)) <$> elements connected)
       ++ ((fun w => BDelivered w (dumps payload))
             <$> filter (fun w => b_send env w = Sent) (elements connected))).
Proof.
  unfold fan_out, json_dumps. unfold mbind at 1, traced_bind at 1.
  case_bool_decide as Hwebs.
  - rewrite Hwebs. done.
  - unfold mbind at 1, traced_bind at 1. rewrite collect_sends_run. simpl.
    case_bool_decide as Hcoros.
    + simpl. rewrite <- delivered_of_collected, Hcoros. simpl. by rewrite app_nil_r.
    + unfold mbind, traced_bind. rewrite gather_run. simpl.
      by rewrite delivered_of_collected, app_nil_r.
Qed.

Lemma tick_body_idle env payload h connected :
  match payload with
  | Some p => is_none (dict_get (deref h p) "landmarks") = true
  | None => True
  end ->
  tick_body dumps env payload h connected = (Py.Ok tt, idle_events env).
Proof.
  intros Hidle. unfold tick_body. destruct payload as [p|]; [rewrite Hidle|]; done.
Qed.

Lemma tick_body_send env p h connected :
  is_none (dict_get (deref h p) "landmarks") = false ->
  tick_body dumps env (Some p) h connected =
    (Py.Ok tt, fan_out_events dumps env (deref h p) connected).
Proof.
  intros Hlm. unfold tick_body. rewrite Hlm, fan_out_run.
  unfold mbind, traced_bind, asyncio_sleep, fan_out_events. simpl.
  by rewrite <- !app_assoc.
Qed.

Lemma broadcast_tick_idle env st payload h :
  get_payload_fn (b_heap env) = Py.Ok (payload, h) ->
  match payload with
  | Some p => is_none (dict_get (deref h p) "landmarks") = true
  | None => True
  end ->
  broadcast_tick dumps get_payload_fn env st =
    Py.Ok {| CONNECTED := CONNECTED st; b_trace := b_trace st ++ idle_events env |}.
Proof.
  intros Hget Hidle. unfold broadcast_tick. by rewrite Hget, tick_body_idle.
Qed.

Lemma broadcast_tick_send env st p h :
  get_payload_fn (b_heap env) = Py.Ok (Some p, h) ->
  is_none (dict_get (deref h p) "landmarks") = false ->
  broadcast_tick dumps get_payload_fn env st =
    Py.Ok {| CONNECTED := CONNECTED st;
             b_trace := b_trace st
                          ++ fan_out_events dumps env (deref h p) (CONNECTED st) |}.
Proof.
  intros Hget Hlm. unfold broadcast_tick. by rewrite Hget, tick_body_send.
Qed.

End BroadcastFacts.

Section TraceFacts.
Context {A B C : Type}.

Lemma omap_fmap_None (f : B -> option C) (g : A -> B) (l : list A) :
  (forall x, f (g x) = None) -> omap f (g <$> l) = [].
Proof. intros H. induction l as [|x l IH]; [done|]. simpl. by rewrite H. Qed.

Lemma omap_fmap_Some (f : B -> option C) (g : A -> B) (k : A -> C) (l : list A) :
  (forall x, f (g x) = Some (k x)) -> omap f (g <$> l) = k <$> l.
Proof.
  intros H. induction l as [|x l IH]; [done|].
  simpl. rewrite H. simpl. f_equal. exact IH.
Qed.

End TraceFacts.

Section BroadcastTraces.
Variable dumps : pydict -> string.
Implicit Types (env : tick_env) (payload : pydict) (connected : gset ws).

Lemma idle_events_silent env :
  dumped (idle_events env) = [] /\ send_calls (idle_events env) = [] /\
  delivered (idle_events env) = [].
Proof. done. Qed.

Lemma dumped_fan_out env payload connected :
  dumped (fan_out_events dumps env payload connected) = [dumps payload].
Proof.
  unfold fan_out_events, dumped. simpl. rewrite !omap_app.
  by rewrite !omap_fmap_None.
Qed.

Lemma send_calls_fan_out env payload connected :
  send_calls (fan_out_events dumps env payload connected) =
    (fun w => (w, dumps payload)) <$> elements connected.
Proof.
  unfold fan_out_events, send_calls. simpl. rewrite !omap_app.
  rewrite (omap_fmap_Some _ _ (fun w => (w, dumps payload))) by done.
  rewrite omap_fmap_None by done. simpl. by rewrite app_nil_r.
Qed.

Lemma delivered_fan_out env payload connected :
  delivered (fan_out_events dumps env payload connected) =
    (fun w => (w, dumps payload))
      <$> filter (fun w => b_send env w = Sent) (elements connected).
Proof.
  unfold fan_out_events, delivered. simpl. rewrite !omap_app.
  rewrite omap_fmap_None by done.
  rewrite (omap_fmap_Some _ _ (fun w => (w, dumps payload))) by done.
  simpl. by rewrite app_nil_r.
Qed.

Lemma delivered_fan_out_elem env payload connected w m :
  (w, m) ∈ delivered (fan_out_events dumps env payload connected) <->
  m = dumps payload /\ w ∈ connected /\ b_send env w = Sent.
Proof.
  rewrite delivered_fan_out, list_elem_of_fmap. split.
  - intros (w' & [= -> ->] & Hin). apply list_elem_of_filter in Hin as [Hs Hin].
    by apply elem_of_elements in Hin.
  - intros (-> & Hin & Hs). exists w. split; [done|].
    apply list_elem_of_filter. split; [done|]. by apply elem_of_elements.
Qed.

End BroadcastTraces.

Section BroadcastClaims.
Variable dumps : pydict -> string.
Variable get_payload_fn : heap -> Py.result (option loc * heap).

Lemma broadcast_tick_returns env st :
  Py.returns (get_payload_fn (b_heap env)) ->
  exists evs,
    broadcast_tick dumps get_payload_fn env st =
      Py.Ok {| CONNECTED := CONNECTED st; b_trace := b_trace st ++ evs |}.
Proof.
  intros [[payload h] Hget].
  destruct payload as [p|].
  - destruct (is_none (dict_get (deref h p) "landmarks")) eqn:Hlm.
    + eexists. by apply (broadcast_tick_idle dumps get_payload_fn env st (Some p) h).
    + eexists. by apply (broadcast_tick_send dumps get_payload_fn env st p h).
  - eexists. by apply (broadcast_tick_idle dumps get_payload_fn env st None h).
Qed.

Lemma broadcast_loop_returns envs st :
  Forall (fun env => Py.returns (get_payload_fn (b_heap env))) envs ->
  Py.returns (broadcast_loop dumps get_payload_fn envs st).
Proof.
  intros Hall. revert st. induction Hall as [|env envs Henv _ IH]; intros st.
  - by eexists.
  - simpl. destruct (b_stop_seen env); [by eexists|].
    destruct (broadcast_tick_returns env st Henv) as [evs ->]. apply IH.
Qed.

(** C3: a tick whose read is empty, or whose payload has no landmarks,
    serializes nothing and sends nothing; any other tick serializes the
    payload once and calls [send] with that one message on every connection
    of the registry, and that message, and nothing else, is delivered to
    exactly the connections of the registry whose send completes. *)
Theorem broadcast_tick_spec env st payload h :
  get_payload_fn (b_heap env) = Py.Ok (payload, h) ->
  exists evs,
    broadcast_tick dumps get_payload_fn env st =
      Py.Ok {| CONNECTED := CONNECTED st; b_trace := b_trace st ++ evs |} /\
    match payload with
    | Some p =>
        if is_none (dict_get (deref h p) "landmarks")
        then dumped evs = [] /\ send_calls evs = [] /\ delivered evs = []
        else dumped evs = [dumps (deref h p)] /\
             send_calls evs =
               (fun w => (w, dumps (deref h p))) <$> elements (CONNECTED st) /\
             (forall w, w ∈ CONNECTED st -> (w, dumps (deref h p)) ∈ send_calls evs) /\
             (forall w m, (w, m) ∈ delivered evs <->
                m = dumps (deref h p) /\ w ∈ CONNECTED st /\ b_send env w = Sent)
    | None => dumped evs = [] /\ send_calls evs = [] /\ delivered evs = []
    end.
Proof.
  intros Hget. destruct payload as [p|].
  - destruct (is_none (dict_get (deref h p) "landmarks")) eqn:Hlm.
    + exists (idle_events env).
      split; [by apply (broadcast_tick_idle dumps get_payload_fn env st (Some p) h)|].
      apply idle_events_silent.
    + exists (fan_out_events dumps env (deref h p) (CONNECTED st)).
      split; [by apply broadcast_tick_send|].
      split; [apply dumped_fan_out|].
      split; [apply send_calls_fan_out|]. split.
      * intros w Hw. rewrite send_calls_fan_out.
        apply list_elem_of_fmap. exists w. split; [done|].
        by apply elem_of_elements.
      * intros w m. apply delivered_fan_out_elem.
  - exists (idle_events env).
    split; [by apply (broadcast_tick_idle dumps get_payload_fn env st None h)|].
    apply idle_events_silent.
Qed.

(** C2: in a tick that fans out, a send that fails is caught; the message
    is still delivered to every connection whose send completes, the tick
    returns with the registry as it found it, and the loop goes on whatever
    the sends do. *)
Theorem send_failure_isolated :
  (forall env st p h,
     get_payload_fn (b_heap env) = Py.Ok (Some p, h) ->
     is_none (dict_get (deref h p) "landmarks") = false ->
     exists evs,
       broadcast_tick dumps get_payload_fn env st =
         Py.Ok {| CONNECTED := CONNECTED st; b_trace := b_trace st ++ evs |} /\
       (forall w, w ∈ CONNECTED st -> b_send env w = Sent ->
          (w, dumps (deref h p)) ∈ delivered evs) /\
       (forall w m, (w, m) ∈ delivered evs -> b_send env w = Sent)) /\
  (forall envs st,
     Forall (fun env => Py.returns (get_payload_fn (b_heap env))) envs ->
     Py.returns (broadcast_loop dumps get_payload_fn envs st)).
Proof.
  split; [|apply broadcast_loop_returns].
  intros env st p h Hget Hlm.
  exists (fan_out_events dumps env (deref h p) (CONNECTED st)).
  split; [by apply broadcast_tick_send|]. split.
  - intros w Hw Hs. by apply delivered_fan_out_elem.
  - intros w m Hin. by apply delivered_fan_out_elem in Hin as (_ & _ & Hs).
Qed.

End BroadcastClaims.

(** ** The two threads together *)

(** C1 (the code departs from it): the writer assigns the six fields one
    statement at a time, so a read that falls after the first two assignments
    of write B returns B's timestamp and landmarks with A's image size, depth
    and rate; during the first write ever it returns a dict that has no image
    size at all. *)
Theorem torn_read :
  (exists d,
     interleave lp0 torn_schedule (opsA ++ opsB) heap0 = [Py.Ok (Some d)] /\
     d !! "timestamp" = Some (VFloat (t_stamp envB)) /\
     d !! "landmarks" = Some (VList (landmarks_to_normalized_list sample_pose_B)) /\
     d !! "image_w" = Some (VInt (f_w frA)) /\
     d !! "image_h" = Some (VInt (f_h frA)) /\
     d !! "mid_hip_z" = Some (VFloat (((1 # 4) + (3 # 4)) / 2)) /\
     d ≠ assign_all opsA initial_payload /\
     d ≠ assign_all opsB (assign_all opsA initial_payload)) /\
  (exists d,
     interleave lp0 partial_schedule opsA heap0 = [Py.Ok (Some d)] /\
     d !! "timestamp" = Some (VFloat (t_stamp envA)) /\
     d !! "landmarks" = Some (VList (landmarks_to_normalized_list sample_pose)) /\
     d !! "image_w" = None /\ d !! "image_h" = None /\
     d !! "mid_hip_z" = None /\ d !! "fps" = None).
Proof.
  split.
  - exists (assign_all (opsA ++ take 2 opsB) initial_payload).
    repeat split; try reflexivity.
    + intros Heq.
      assert (H1 : assign_all (opsA ++ take 2 opsB) initial_payload !! "timestamp"
                   = Some (VFloat (t_stamp envB))) by reflexivity.
      assert (H2 : assign_all opsA initial_payload !! "timestamp"
                   = Some (VFloat (t_stamp envA))) by reflexivity.
      rewrite Heq, H2 in H1. discriminate H1.
    + intros Heq.
      assert (H1 : assign_all (opsA ++ take 2 opsB) initial_payload !! "image_w"
                   = Some (VInt (f_w frA))) by reflexivity.
      assert (H2 : assign_all opsB (assign_all opsA initial_payload) !! "image_w"
                   = Some (VInt (f_w frB))) by reflexivity.
      rewrite Heq, H2 in H1. discriminate H1.
  - exists (assign_all (take 2 opsA) initial_payload).
    repeat split; reflexivity.
Qed.

(** ** The claims at sample inputs *)

Lemma mailbox_last_write_wins_witness :
  exists ops r h',
    iteration_stores envB (t_prev envA) frB = Py.Ok ops /\
    read_many lp0 3 (c_heap (iterate lp0 [envA; envB] st0)) = Py.Ok (replicate 3 r, h') /\
    match f_pose frB with
    | Some _ => exists d, r = Some d /\ forall k v, (k, v) ∈ ops -> d !! k = Some v
    | None => r = None
    end.
Proof. apply (mailbox_last_write_wins lp0 envA envB frA frB st0 3); reflexivity. Defined.

Lemma get_payload_peek_witness :
  exists r h',
    read_contents lp0 heapA = Py.Ok r /\
    read_many lp0 3 heapA = Py.Ok (replicate 3 r, h') /\
    heapA ⊆ h' /\
    deref h' lp0 = deref heapA lp0.
Proof.
  apply (get_payload_peek lp0 heapA 3 (VList (landmarks_to_normalized_list sample_pose))).
  reflexivity.
Defined.

Lemma get_payload_none_iff_witness :
  ((exists h', get_payload lp0 heap0 = Py.Ok (None, h')) <-> VNone = VNone) /\
  (VNone ≠ VNone ->
     exists l, heap0 !! l = None /\
       get_payload lp0 heap0 = Py.Ok (Some l, <[l := deref heap0 lp0]> heap0)) /\
  read_contents lp0 (<[lp0 := initial_payload]> heap0) = Py.Ok None /\
  read_contents lp0 (setitem lp0 "landmarks" VNone heap0) = Py.Ok None.
Proof. apply (get_payload_none_iff lp0 heap0 VNone). reflexivity. Defined.

Lemma no_detection_keeps_fields_witness :
  deref (c_heap ((camera_iteration lp0 envN stA).2)) lp0 !! "landmarks" = Some VNone /\
  deref (c_heap ((camera_iteration lp0 envN stA).2)) lp0 !! "image_w"
    = deref (c_heap stA) lp0 !! "image_w".
Proof.
  assert (Hnd : no_detection envN) by (exists frN; split; reflexivity).
  destruct (no_detection_keeps_fields lp0 envN stA Hnd) as (_ & _ & Hlm & Hkeep & _).
  split; [exact Hlm|]. apply Hkeep. discriminate.
Defined.

Lemma read_failure_exits_witness :
  (exists s',
     camera_worker lp0 true 10 ([envA] ++ envF :: [envB]) st0 = (Py.Ok Exited, s') /\
     c_stop s' = true /\
     c_heap s' = c_heap stA /\
     stores_of (c_trace s') = stores_of (c_trace stA)) /\
  (exists ops fl st',
     iteration_stores envA (c_prev st0) frA = Py.Ok ops /\
     camera_iteration lp0 envA st0 = (Py.Ok fl, st') /\
     c_heap st' = write_all lp0 ops (c_heap st0) /\
     stores_of (c_trace st') = stores_of (c_trace st0) ++ ops /\
     payload_updates (c_trace st') = S (payload_updates (c_trace st0))).
Proof.
  split.
  - apply (proj1 (proj2 (read_failure_exits lp0)) 10%Q [envA] envF [envB] st0 stA);
      reflexivity.
  - apply (proj2 (proj2 (proj2 (read_failure_exits lp0))) envA frA st0). reflexivity.
Defined.

Lemma broadcast_tick_spec_witness :
  exists evs,
    broadcast_tick sample_dumps (get_payload lp0) sample_tick sample_bc =
      Py.Ok {| CONNECTED := CONNECTED sample_bc; b_trace := b_trace sample_bc ++ evs |} /\
    dumped evs = [sample_dumps (deref heapA' copyA)] /\
    send_calls evs =
      (fun w => (w, sample_dumps (deref heapA' copyA))) <$> elements (CONNECTED sample_bc).
Proof.
  destruct (broadcast_tick_spec sample_dumps (get_payload lp0) sample_tick sample_bc
              (Some copyA) heapA') as (evs & Htick & Hsend); [reflexivity|].
  exists evs. split; [exact Htick|].
  change (is_none (dict_get (deref heapA' copyA) "landmarks")) with false in Hsend.
  destruct Hsend as (Hd & Hc & _). by split.
Defined.

Lemma send_failure_isolated_witness :
  exists evs,
    broadcast_tick sample_dumps (get_payload lp0) sample_tick sample_bc =
      Py.Ok {| CONNECTED := CONNECTED sample_bc; b_trace := b_trace sample_bc ++ evs |} /\
    (forall w, w ∈ CONNECTED sample_bc -> b_send sample_tick w = Sent ->
       (w, sample_dumps (deref heapA' copyA)) ∈ delivered evs) /\
    (forall w m, (w, m) ∈ delivered evs -> b_send sample_tick w = Sent).
Proof.
  apply (proj1 (send_failure_isolated sample_dumps (get_payload lp0))
           sample_tick sample_bc copyA heapA'); reflexivity.
Defined.

(** A connection leaves the registry when its handler ends, however it ends. *)
Lemma ws_handler_exit_removes (w : ws) (how : handler_end) (connected : gset ws) :
  (w ∉ ws_handler_exit w how connected) /\
  (forall w', w' ≠ w -> w' ∈ ws_handler_exit w how connected <-> w' ∈ connected).
Proof. destruct how; simpl; set_solver. Qed.

(** C2, as stated, fails: the connection whose send fails is still in the
    registry when the tick returns. *)
Lemma send_failure_removal_counterexample :
  ~ (forall dumps get_payload_fn env st st' w,
       broadcast_tick dumps get_payload_fn env st = Py.Ok st' ->
       w ∈ CONNECTED st -> b_send env w ≠ Sent -> w ∉ CONNECTED st').
Proof.
  intros H.
  assert (Htick : broadcast_tick sample_dumps (get_payload lp0) sample_tick sample_bc =
            Py.Ok {| CONNECTED := CONNECTED sample_bc;
                     b_trace := b_trace sample_bc
                       ++ fan_out_events sample_dumps sample_tick
                            (deref heapA' copyA) (CONNECTED sample_bc) |})
    by (apply broadcast_tick_send; reflexivity).
  apply (H _ _ _ _ _ 2 Htick).
  - unfold sample_bc, sample_registry. simpl. set_solver.
  - discriminate.
  - unfold sample_bc, sample_registry. simpl. set_solver.
Qed.

Section PacingClaims.

Lemma broadcast_tick_trace dumps get_payload_fn env st st' :
  broadcast_tick dumps get_payload_fn env st = Py.Ok st' ->
  exists body,
    b_trace st' = b_trace st ++ body
      ++ [BSleep (slept (broadcast_pacing (b_end env - b_start env)%Q))].
Proof.
  unfold broadcast_tick.
  destruct (get_payload_fn (b_heap env)) as [[payload h]|e]; [|done].
  destruct payload as [p|].
  - destruct (is_none (dict_get (deref h p) "landmarks")) eqn:Hlm.
    + rewrite (tick_body_idle dumps env (Some p) h) by done.
      intros [= <-]. simpl. by exists [BSleep (1 # 1000)].
    + rewrite tick_body_send by done. intros [= <-]. simpl.
      exists (BDumps (deref h p) (dumps (deref h p))
                :: ((fun w => BSendCall w (dumps (deref h p)))
                      <$> elements (CONNECTED st))
                ++ ((fun w => BDelivered w (dumps (deref h p)))
                      <$> filter (fun w => b_send env w = Sent)
                            (elements (CONNECTED st)))).
      unfold fan_out_events. simpl. by rewrite <- !app_assoc.
  - rewrite (tick_body_idle dumps env None h) by done.
    intros [= <-]. simpl. by exists [BSleep (1 # 1000)].
Qed.

End PacingClaims.

(** C4: an iteration of the producer ends with its pacing decision on the
    time it took, and a tick of the broadcaster with its own. Both sleep for
    [FRAME_DELAY - elapsed] when that is positive; on an overrun the producer
    does not sleep (its sleep time is max(0, FRAME_DELAY - elapsed)
    throughout), and the broadcaster sleeps for one millisecond. *)
Theorem pacing_spec :
  (forall last_payload env fr st,
     cap_read env = Some fr ->
     exists ops,
       c_trace ((camera_iteration last_payload env st).2) =
         c_trace st ++ store_events ops
           ++ pace_events (producer_pacing (t_end env - t0 env)%Q)) /\
  (forall dumps get_payload_fn env st st',
     broadcast_tick dumps get_payload_fn env st = Py.Ok st' ->
     exists body,
       b_trace st' = b_trace st ++ body
         ++ [BSleep (slept (broadcast_pacing (b_end env - b_start env)%Q))]) /\
  (forall elapsed : Q,
     ((elapsed < FRAME_DELAY)%Q ->
        producer_pacing elapsed = Some (FRAME_DELAY - elapsed)%Q /\
        broadcast_pacing elapsed = Some (FRAME_DELAY - elapsed)%Q) /\
     ((FRAME_DELAY <= elapsed)%Q ->
        producer_pacing elapsed = None /\
        broadcast_pacing elapsed = Some (1 # 1000)) /\
     (slept (producer_pacing elapsed) == Qmax 0 (FRAME_DELAY - elapsed))%Q).
Proof.
  split; [|split; [exact broadcast_tick_trace|]].
  { intros last_payload env fr st Hread.
    destruct (iteration_stores_returns env (c_prev st) fr) as (ops & Hops & _).
    exists ops. by rewrite (camera_iteration_run last_payload env fr ops st Hread Hops). }
  intros elapsed. split; [|split].
  - intros H. by rewrite producer_pacing_under, broadcast_pacing_under.
  - intros H. by rewrite producer_pacing_over, broadcast_pacing_over.
  - destruct (Qlt_le_dec elapsed FRAME_DELAY) as [Hlt|Hle].
    + rewrite producer_pacing_under by done. simpl.
      rewrite Q.max_r; [reflexivity|lra].
    + rewrite producer_pacing_over by done. simpl.
      rewrite Q.max_l; [reflexivity|lra].
Qed.

Lemma pacing_spec_witness :
  (producer_pacing (1 # 100) = Some (FRAME_DELAY - (1 # 100))%Q /\
   broadcast_pacing (1 # 100) = Some (FRAME_DELAY - (1 # 100))%Q) /\
  (producer_pacing (1 # 10) = None /\ broadcast_pacing (1 # 10) = Some (1 # 1000)).
Proof.
  split.
  - apply (proj1 (proj2 (proj2 pacing_spec) (1 # 100))). reflexivity.
  - apply (proj1 (proj2 (proj2 (proj2 pacing_spec) (1 # 10)))). discriminate.
Defined.

(** C4, as stated, fails: on an overrun the broadcaster does sleep, so the two
    loops do not pace themselves identically. *)
Lemma pacing_identical_counterexample :
  ~ (forall elapsed : Q,
       broadcast_pacing elapsed = producer_pacing elapsed /\
       ((FRAME_DELAY <= elapsed)%Q -> broadcast_pacing elapsed = None)).
Proof.
  intros H. destruct (H (1 # 10)) as [Heq _]. vm_compute in Heq. discriminate.
Qed.

(** * Further properties *)

(** ** [landmarks_to_normalized_list] *)

Lemma imap_entry_ids (n : nat) (landmarks : list landmark) :
  e_id <$> imap (fun idx lm =>
                   {| e_id := n + idx; e_x := lm_x lm; e_y := lm_y lm; e_z := lm_z lm;
                      e_visibility := lm_visibility lm |}) landmarks
  = seq n (length landmarks).
Proof.
  revert n. induction landmarks as [|lm landmarks IH]; intros n; [done|].
  simpl. rewrite Nat.add_0_r. f_equal.
  rewrite <- (IH (S n)). f_equal. apply imap_ext. intros i x _. simpl.
  by rewrite Nat.add_succ_r.
Qed.

(** The normalized list has one entry per landmark, in order: entry [i] has
    id [i] and the coordinates and visibility of landmark [i]. *)
Theorem landmarks_to_normalized_list_spec (landmarks : list landmark) :
  length (landmarks_to_normalized_list landmarks) = length landmarks /\
  e_id <$> landmarks_to_normalized_list landmarks = seq 0 (length landmarks) /\
  (forall i lm, landmarks !! i = Some lm ->
     landmarks_to_normalized_list landmarks !! i =
       Some {| e_id := i; e_x := lm_x lm; e_y := lm_y lm; e_z := lm_z lm;
               e_visibility := lm_visibility lm |}) /\
  (forall i, length landmarks <= i -> landmarks_to_normalized_list landmarks !! i = None).
Proof.
  unfold landmarks_to_normalized_list. split; [apply length_imap|].
  split; [exact (imap_entry_ids 0 landmarks)|]. split.
  - intros i lm Hi. by rewrite list_lookup_imap, Hi.
  - intros i Hi. rewrite list_lookup_imap. by rewrite (lookup_ge_None_2 landmarks i).
Qed.

Lemma landmarks_to_normalized_list_spec_witness :
  landmarks_to_normalized_list sample_pose !! 23 =
    Some {| e_id := 23; e_x := 1 # 2; e_y := 1 # 2; e_z := 1 # 4;
            e_visibility := Some (9 # 10) |} /\
  landmarks_to_normalized_list sample_pose !! 33 = None.
Proof.
  split.
  - apply (proj1 (proj2 (proj2 (landmarks_to_normalized_list_spec sample_pose)))
             23 (sample_landmark (1 # 4))). reflexivity.
  - apply (proj2 (proj2 (proj2 (landmarks_to_normalized_list_spec sample_pose))) 33).
    simpl. lia.
Defined.

(** ** The rate field *)

Lemma py_max_lower (a b : Q) : (a <= Py.max a b)%Q.
Proof. unfold Py.max. destruct (Qlt_le_dec a b); lra. Qed.

Lemma py_max_floor (a b : Q) : (b <= a)%Q -> Py.max a b = a.
Proof.
  intros H. unfold Py.max. destruct (Qlt_le_dec a b) as [Hlt|_]; [lra|done].
Qed.

(** The rate an iteration stores is positive and at most 10000, whatever the
    clock answers: the divisor is never below 1e-4, so there is no division
    by zero, and a clock that did not advance gives exactly 10000. *)
Theorem fps_bounded (env : iter_env) (prev : Q) :
  (forall fr nl m,
     ("fps", VFloat (fps_of env prev)) ∈ detection_stores env prev fr nl m) /\
  (0 < fps_of env prev)%Q /\
  (fps_of env prev <= 10000)%Q /\
  ((t_fps env - prev <= 1 # 10000)%Q -> fps_of env prev = 10000%Q).
Proof.
  split; [|split; [|split]].
  - intros fr nl m. unfold detection_stores, fps_of. set_solver.
  - unfold fps_of. pose proof (py_max_lower (1 # 10000) (t_fps env - prev)) as Hm.
    apply Qlt_shift_div_l; lra.
  - unfold fps_of. pose proof (py_max_lower (1 # 10000) (t_fps env - prev)) as Hm.
    apply Qle_shift_div_r; lra.
  - intros Hle. unfold fps_of. by rewrite py_max_floor.
Qed.

Lemma fps_bounded_witness : fps_of envA 11 = 10000%Q.
Proof.
  apply (proj2 (proj2 (proj2 (fps_bounded envA 11)))). discriminate.
Defined.

(** ** The producer as a whole *)

Section WorkerFacts.
Variable last_payload : loc.

(** What an iteration does to the state, in the two cases of the read. *)
Lemma camera_iteration_cases env s :
  camera_iteration last_payload env s = (Py.Ok Break, s) \/
  exists fr ops,
    cap_read env = Some fr /\
    iteration_stores env (c_prev s) fr = Py.Ok ops /\
    camera_iteration last_payload env s =
      (Py.Ok (if q_pressed env then Break else Continue),
       {| c_heap := write_all last_payload ops (c_heap s);
          c_stop := c_stop s || q_pressed env;
          c_prev := t_prev env;
          c_trace := c_trace s ++ store_events ops
                       ++ pace_events (producer_pacing (t_end env - t0 env)%Q) |}).
Proof.
  destruct (cap_read env) as [fr|] eqn:Hread.
  - right. destruct (iteration_stores_returns env (c_prev s) fr) as (ops & Hops & _).
    exists fr, ops. split; [done|]. split; [done|].
    exact (camera_iteration_run last_payload env fr ops s Hread Hops).
  - left. by apply camera_iteration_read_failed.
Qed.

Lemma camera_iteration_returns env s :
  exists fl, (camera_iteration last_payload env s).1 = Py.Ok fl.
Proof.
  destruct (camera_iteration_cases env s) as [->|(fr & ops & _ & _ & ->)]; by eexists.
Qed.

(** A property of the state that setting the stop event and running an
    iteration keep is kept by the loop. *)
Lemma camera_loop_keeps (P : cam_state -> Prop) :
  (forall s, P s -> P ((stop_event_set s).2)) ->
  (forall env s, P s -> P ((camera_iteration last_payload env s).2)) ->
  forall envs s, P s -> P ((camera_loop last_payload envs s).2).
Proof.
  intros Hstop Hiter envs. induction envs as [|env envs IH]; intros s Hs; [done|].
  simpl. unfold mbind, cam_bind.
  assert (Hobs : P ((observe_stop (stop_seen env) s).2)).
  { unfold observe_stop. destruct (stop_seen env); [by apply Hstop|done]. }
  destruct (observe_stop (stop_seen env) s) as [[[]|e] s0] eqn:Ho; [|done].
  simpl in Hobs. unfold stop_event_is_set. destruct (c_stop s0); [done|].
  pose proof (Hiter env s0 Hobs) as Hit.
  destruct (camera_iteration last_payload env s0) as [[[|]|e] s1]; simpl in *; try done.
  by apply IH.
Qed.

(** The same for the worker, whose [finally] block also releases the camera. *)
Lemma camera_worker_keeps (P : cam_state -> Prop) :
  (forall s, P s -> P ((stop_event_set s).2)) ->
  (forall t s, P s -> P ((set_prev t s).2)) ->
  (forall s, P s -> P ((emit ERelease s).2)) ->
  (forall env s, P s -> P ((camera_iteration last_payload env s).2)) ->
  forall opened t_start envs s,
    P s -> P ((camera_worker last_payload opened t_start envs s).2).
Proof.
  intros Hstop Hprev Hrel Hiter opened t_start envs s Hs.
  unfold camera_worker. destruct opened; simpl; [|by apply Hstop].
  unfold mbind at 1, cam_bind at 1.
  change (set_prev t_start s) with (Py.Ok tt, (set_prev t_start s).2). cbv beta iota.
  pose proof (camera_loop_keeps P Hstop Hiter envs _ (Hprev t_start s Hs)) as Hloop.
  destruct (camera_loop last_payload envs (set_prev t_start s).2) as [[[|]|e] s1];
    simpl in Hloop; [done| |]; apply (Hstop _ (Hrel _ Hloop)).
Qed.

End WorkerFacts.

Section WorkerClaims.
Variable last_payload : loc.


Lemma payload_wf_initial : payload_wf initial_payload.
Proof.
  unfold payload_wf, initial_payload. split; [|split].
  - rewrite lookup_insert_eq. by eexists.
  - rewrite !dom_insert_L. unfold snapshot_keys. set_solver.
  - rewrite lookup_insert_eq. done.
Qed.





Lemma camera_worker_opened t_start envs s :
  camera_worker last_payload true t_start envs s =
    match camera_loop last_payload envs ((set_prev t_start s).2) with
    | (Py.Ok Running, s') => (Py.Ok Running, s')
    | (Py.Ok Exited, s') => (Py.Ok Exited, (stop_event_set ((emit ERelease s').2)).2)
    | (Py.Raise e, s') => (Py.Raise e, (stop_event_set ((emit ERelease s').2)).2)
    end.
Proof. reflexivity. Qed.

Lemma camera_worker_not_opened t_start envs s :
  camera_worker last_payload false t_start envs s = (Py.Ok Exited, (stop_event_set s).2).
Proof. reflexivity. Qed.


(** The worker writes to [last_payload] and to no other dict object. *)
Theorem producer_touches_only_payload opened t_start envs s (l : loc) :
  l ≠ last_payload ->
  c_heap ((camera_worker last_payload opened t_start envs s).2) !! l = c_heap s !! l.
Proof.
  intros Hl.
  apply (camera_worker_keeps last_payload (fun s' => c_heap s' !! l = c_heap s !! l));
    try done.
  intros env s0 Hs0.
  destruct (camera_iteration_cases last_payload env s0)
    as [->|(fr & ops & _ & _ & ->)]; [done|].
  simpl. by rewrite lookup_write_all_ne.
Qed.

(** The worker never clears the stop event; it has set it whenever it is no
    longer in its loop; and when the event is set before the first test of
    the loop, it leaves without reading the camera or writing the payload. *)
Theorem stop_event_respected :
  (forall opened t_start envs s,
     c_stop s = true ->
     c_stop ((camera_worker last_payload opened t_start envs s).2) = true) /\
  (forall opened t_start envs s,
     (camera_worker last_payload opened t_start envs s).1 ≠ Py.Ok Running ->
     c_stop ((camera_worker last_payload opened t_start envs s).2) = true) /\
  (forall t_start env envs s,
     c_stop s = true \/ stop_seen env = true ->
     camera_worker last_payload true t_start (env :: envs) s =
       (Py.Ok Exited,
        {| c_heap := c_heap s; c_stop := true; c_prev := t_start;
           c_trace := c_trace s ++ [ERelease] |})).
Proof.
  split; [|split].
  - intros opened t_start envs s Hs.
    apply (camera_worker_keeps last_payload (fun s' => c_stop s' = true)); try done.
    intros env s0 Hs0.
    destruct (camera_iteration_cases last_payload env s0)
      as [->|(fr & ops & _ & _ & ->)]; [done|].
    simpl. by rewrite Hs0.
  - intros opened t_start envs s. destruct opened; [|done].
    rewrite camera_worker_opened.
    destruct (camera_loop last_payload envs (set_prev t_start s).2) as [[[|]|e] s1];
      simpl; [intros H; by destruct H|done|done].
  - intros t_start env envs s Hstop. unfold camera_worker. simpl.
    unfold mbind, cam_bind, observe_stop. simpl.
    destruct (stop_seen env); simpl; [done|].
    destruct Hstop as [->|?]; done.
Qed.

End WorkerClaims.

Section WorkerTraces.
Variable last_payload : loc.

Lemma q_pressed_iff env : q_pressed env = true <-> (key env mod 256 = 113)%Z.
Proof.
  unfold q_pressed. rewrite Z.eqb_eq.
  change 255%Z with (Z.ones 8). rewrite Z.land_ones by lia. done.
Qed.

Lemma camera_loop_cons_run env envs s :
  stop_seen env = false -> c_stop s = false ->
  camera_loop last_payload (env :: envs) s =
    match camera_iteration last_payload env s with
    | (Py.Ok Break, s') => (Py.Ok Exited, s')
    | (Py.Ok Continue, s') => camera_loop last_payload envs s'
    | (Py.Raise e, s') => (Py.Raise e, s')
    end.
Proof.
  intros Hseen Hstop. simpl. unfold mbind, cam_bind, observe_stop.
  rewrite Hseen. simpl. rewrite Hstop.
  by destruct (camera_iteration last_payload env s) as [[[|]|e] s'].
Qed.

(** The key test looks at the low byte of what [waitKey] returns: the loop
    stops exactly on the values that are 113 modulo 256. It stops after the
    iteration has written its payload, and the worker then leaves with the
    stop event set, whatever would have come next. *)
Theorem q_key_stops :
  (forall env, q_pressed env = true <-> (key env mod 256 = 113)%Z) /\
  (forall t_start env envs fr s,
     c_stop s = false -> stop_seen env = false -> cap_read env = Some fr ->
     (key env mod 256 = 113)%Z ->
     exists ops s',
       iteration_stores env t_start fr = Py.Ok ops /\
       camera_worker last_payload true t_start (env :: envs) s = (Py.Ok Exited, s') /\
       c_stop s' = true /\
       c_heap s' = write_all last_payload ops (c_heap s) /\
       stores_of (c_trace s') = stores_of (c_trace s) ++ ops).
Proof.
  split; [exact q_pressed_iff|].
  intros t_start env envs fr s Hstop Hseen Hread Hkey.
  apply q_pressed_iff in Hkey.
  destruct (iteration_stores_returns env t_start fr) as (ops & Hops & _).
  exists ops. rewrite camera_worker_opened.
  rewrite camera_loop_cons_run by done.
  rewrite (camera_iteration_run last_payload env fr ops ((set_prev t_start s).2) Hread Hops).
  rewrite Hkey. simpl. eexists. split; [done|]. split; [reflexivity|]. simpl.
  split; [done|]. split; [done|].
  rewrite !stores_of_app, stores_of_store_events, stores_of_pace_events. simpl.
  by rewrite !app_nil_r.
Qed.

Lemma releases_app tr1 tr2 : releases (tr1 ++ tr2) = releases tr1 + releases tr2.
Proof. unfold releases. by rewrite omap_app, length_app. Qed.

Lemma releases_store_events ops : releases (store_events ops) = 0.
Proof. induction ops as [|kv ops IH]; [done|exact IH]. Qed.

Lemma releases_pace_events p : releases (pace_events p) = 0.
Proof. by destruct p. Qed.

Lemma camera_loop_no_release envs s :
  releases (c_trace ((camera_loop last_payload envs s).2)) = releases (c_trace s).
Proof.
  apply (camera_loop_keeps last_payload
           (fun s' => releases (c_trace s') = releases (c_trace s))); try done.
  intros env s0 Hs0.
  destruct (camera_iteration_cases last_payload env s0)
    as [->|(fr & ops & _ & _ & ->)]; [done|].
  simpl. rewrite !releases_app, releases_store_events, releases_pace_events. lia.
Qed.

(** The camera is released once when the worker leaves its loop, by whatever
    way, and not at all while the loop runs or when the camera did not open. *)
Theorem camera_released_once opened t_start envs s :
  let out := camera_worker last_payload opened t_start envs s in
  (opened = false -> releases (c_trace out.2) = releases (c_trace s)) /\
  (out.1 = Py.Ok Running -> releases (c_trace out.2) = releases (c_trace s)) /\
  (opened = true -> out.1 ≠ Py.Ok Running ->
     releases (c_trace out.2) = S (releases (c_trace s)) /\
     exists tr, c_trace out.2 = tr ++ [ERelease]).
Proof.
  intros out. subst out. split; [|split].
  - by intros ->.
  - destruct opened; [|done]. rewrite camera_worker_opened.
    pose proof (camera_loop_no_release envs ((set_prev t_start s).2)) as Hrel.
    by destruct (camera_loop last_payload envs (set_prev t_start s).2) as [[[|]|e] s1].
  - intros ->. rewrite camera_worker_opened.
    pose proof (camera_loop_no_release envs ((set_prev t_start s).2)) as Hrel.
    destruct (camera_loop last_payload envs (set_prev t_start s).2) as [[[|]|e] s1];
      simpl in *; [intros H; by destruct H| |]; intros _;
      (split; [rewrite releases_app, Hrel; change (releases [ERelease]) with 1; lia
              |by eexists]).
Qed.

Lemma cam_sleeps_app tr1 tr2 : cam_sleeps (tr1 ++ tr2) = cam_sleeps tr1 ++ cam_sleeps tr2.
Proof. apply omap_app. Qed.

Lemma cam_sleeps_store_events ops : cam_sleeps (store_events ops) = [].
Proof. induction ops as [|kv ops IH]; [done|exact IH]. Qed.

Lemma producer_pacing_positive elapsed d :
  producer_pacing elapsed = Some d -> (0 < d)%Q /\ d = (FRAME_DELAY - elapsed)%Q.
Proof.
  unfold producer_pacing; cbv zeta.
  destruct (Qlt_le_dec 0 (FRAME_DELAY - elapsed)) as [Hlt|_]; [|done].
  by intros [= <-].
Qed.

(** The worker calls [time.sleep] with positive durations only. *)
Theorem producer_sleeps_positive opened t_start envs s :
  Forall (fun d => (0 < d)%Q) (cam_sleeps (c_trace s)) ->
  Forall (fun d => (0 < d)%Q)
    (cam_sleeps (c_trace ((camera_worker last_payload opened t_start envs s).2))).
Proof.
  intros Hs.
  apply (camera_worker_keeps last_payload
           (fun s' => Forall (fun d => (0 < d)%Q) (cam_sleeps (c_trace s')))); try done.
  - intros s0 Hs0. simpl. rewrite cam_sleeps_app. simpl. by rewrite app_nil_r.
  - intros env s0 Hs0.
    destruct (camera_iteration_cases last_payload env s0)
      as [->|(fr & ops & _ & _ & ->)]; [done|].
    simpl. rewrite !cam_sleeps_app, cam_sleeps_store_events. simpl.
    apply Forall_app. split; [done|].
    destruct (producer_pacing (t_end env - t0 env)) as [d|] eqn:Hp; simpl; [|done].
    apply producer_pacing_positive in Hp as [Hd _]. by repeat constructor.
Qed.

End WorkerTraces.

(** ** Copies of the payload *)

Section CopyFacts.
Variable last_payload : loc.

Lemma get_payload_inv h l h1 :
  get_payload last_payload h = Py.Ok (Some l, h1) ->
  exists v,
    deref h last_payload !! "landmarks" = Some v /\ is_none v = false /\
    l = fresh (dom h) /\ h1 = <[l := deref h last_payload]> h.
Proof.
  unfold get_payload, dict_getitem.
  destruct (deref h last_payload !! "landmarks") as [v|] eqn:Hv; [|done].
  simpl. destruct (is_none v) eqn:Hn; [done|].
  intros [= <- <-]. by exists v.
Qed.

Lemma deref_write_all_ne h l l' ops :
  l ≠ l' -> deref (write_all l ops h) l' = deref h l'.
Proof. intros Hne. unfold deref. by rewrite lookup_write_all_ne. Qed.

(** The dict [get_payload] hands out is a new object: it is not the shared
    payload nor any dict that existed before, it holds what the payload held
    at the time of the call, later assignments of the producer do not reach
    it, and the next call hands out yet another object. *)
Theorem get_payload_copy_isolated h l h1 :
  get_payload last_payload h = Py.Ok (Some l, h1) ->
  l ≠ last_payload /\
  h !! l = None /\
  deref h1 l = deref h last_payload /\
  (forall ops, deref (write_all last_payload ops h1) l = deref h last_payload) /\
  (forall l2 h2,
     get_payload last_payload h1 = Py.Ok (Some l2, h2) ->
     l2 ≠ l /\ deref h2 l2 = deref h2 l).
Proof.
  intros Hget. destruct (get_payload_inv h l h1 Hget) as (v & Hv & Hn & -> & ->).
  assert (Halloc : is_Some (h !! last_payload)) by (by eapply deref_key_allocated).
  assert (Hne : fresh (dom h) ≠ last_payload).
  { intros Heq. rewrite <- Heq, fresh_unused in Halloc. by destruct Halloc. }
  split; [done|]. split; [apply fresh_unused|].
  split; [apply deref_insert_eq|]. split.
  - intros ops. rewrite deref_write_all_ne by done. apply deref_insert_eq.
  - intros l2 h2 Hget2.
    destruct (get_payload_inv _ l2 h2 Hget2) as (v2 & _ & _ & -> & ->).
    set (h1 := <[fresh (dom h) := deref h last_payload]> h).
    assert (Hne2 : fresh (dom h1) ≠ fresh (dom h)).
    { intros Heq. pose proof (fresh_unused h1) as Hf.
      rewrite Heq in Hf. unfold h1 in Hf. by rewrite lookup_insert_eq in Hf. }
    split; [done|].
    rewrite deref_insert_eq, deref_insert_ne by done.
    unfold h1. rewrite deref_insert_ne by done. by rewrite deref_insert_eq.
Qed.

End CopyFacts.

Lemma get_payload_copy_isolated_witness :
  copyA ≠ lp0 /\
  heapA !! copyA = None /\
  deref heapA' copyA = deref heapA lp0 /\
  (forall ops, deref (write_all lp0 ops heapA') copyA = deref heapA lp0) /\
  (forall l2 h2,
     get_payload lp0 heapA' = Py.Ok (Some l2, h2) ->
     l2 ≠ copyA /\ deref h2 l2 = deref h2 copyA).
Proof. apply (get_payload_copy_isolated lp0 heapA copyA heapA'). reflexivity. Defined.

(** ** The broadcaster on the mailbox of [main] *)

Section MailboxBroadcast.
Variable dumps : pydict -> string.
Variable last_payload : loc.

Lemma broadcast_tick_of_payload env st v :
  deref (b_heap env) last_payload !! "landmarks" = Some v ->
  broadcast_tick dumps (get_payload last_payload) env st =
    Py.Ok {| CONNECTED := CONNECTED st;
             b_trace := b_trace st ++
               (if is_none v then idle_events env
                else fan_out_events dumps env (deref (b_heap env) last_payload)
                       (CONNECTED st)) |}.
Proof.
  intros Hv. destruct (is_none v) eqn:Hn.
  - destruct v; try done.
    apply (broadcast_tick_idle dumps _ env st None (b_heap env)); [|done].
    by apply get_payload_empty.
  - pose proof (get_payload_copy last_payload (b_heap env) v Hv Hn) as Hget.
    rewrite (broadcast_tick_send dumps _ env st _ _ Hget).
    + by rewrite deref_insert_eq.
    + rewrite deref_insert_eq. unfold dict_get. by rewrite Hv.
Qed.

(** With [get_payload] of [main] as its source, a tick idles when the stored
    [landmarks] is None and otherwise sends the serialization of the stored
    payload; when the payload has no [landmarks] key at all, the KeyError of
    [get_payload] leaves the tick. *)
Theorem broadcast_of_mailbox env st :
  (forall v,
     deref (b_heap env) last_payload !! "landmarks" = Some v ->
     broadcast_tick dumps (get_payload last_payload) env st =
       Py.Ok {| CONNECTED := CONNECTED st;
                b_trace := b_trace st ++
                  (if is_none v then idle_events env
                   else fan_out_events dumps env (deref (b_heap env) last_payload)
                          (CONNECTED st)) |}) /\
  (deref (b_heap env) last_payload !! "landmarks" = None ->
   broadcast_tick dumps (get_payload last_payload) env st = Py.Raise Py.KeyError).
Proof.
  split; [intros v; apply broadcast_tick_of_payload|].
  intros Hmiss. unfold broadcast_tick. by rewrite get_payload_missing.
Qed.

End MailboxBroadcast.

Lemma broadcast_of_mailbox_witness :
  broadcast_tick sample_dumps (get_payload lp0) sample_tick sample_bc =
    Py.Ok {| CONNECTED := CONNECTED sample_bc;
             b_trace := b_trace sample_bc ++
               fan_out_events sample_dumps sample_tick
                 (deref (b_heap sample_tick) lp0) (CONNECTED sample_bc) |} /\
  broadcast_tick sample_dumps (get_payload 7%positive) sample_tick sample_bc =
    Py.Raise Py.KeyError.
Proof.
  split.
  - apply (proj1 (broadcast_of_mailbox sample_dumps lp0 sample_tick sample_bc)
             (VList (landmarks_to_normalized_list sample_pose))). reflexivity.
  - apply (proj2 (broadcast_of_mailbox sample_dumps 7%positive sample_tick sample_bc)).
    reflexivity.
Defined.

(** ** One tick, one message per connection *)

Section FanOutCounts.
Variable dumps : pydict -> string.
Variable get_payload_fn : heap -> Py.result (option loc * heap).

Lemma fst_pair_with (m : string) (l : list ws) : ((fun w => (w, m)) <$> l).*1 = l.
Proof. induction l as [|w l IH]; [done|]. simpl. f_equal. exact IH. Qed.

(** In a tick that fans out, [send] is called with the tick's message once on
    each connection of the registry and on nothing else; the message is
    delivered once to each connection of the registry whose send completes,
    and to no other. *)
Theorem fan_out_counts env st p h :
  get_payload_fn (b_heap env) = Py.Ok (Some p, h) ->
  is_none (dict_get (deref h p) "landmarks") = false ->
  exists evs,
    broadcast_tick dumps get_payload_fn env st =
      Py.Ok {| CONNECTED := CONNECTED st; b_trace := b_trace st ++ evs |} /\
    length (send_calls evs) = size (CONNECTED st) /\
    NoDup (send_calls evs).*1 /\
    (forall w m, (w, m) ∈ send_calls evs -> w ∈ CONNECTED st) /\
    NoDup (delivered evs).*1 /\
    delivered evs ⊆ send_calls evs /\
    length (delivered evs) <= size (CONNECTED st) /\
    (forall w m, (w, m) ∈ send_calls evs <->
       m = dumps (deref h p) /\ w ∈ CONNECTED st) /\
    (forall w m, (w, m) ∈ delivered evs <->
       m = dumps (deref h p) /\ w ∈ CONNECTED st /\ b_send env w = Sent).
Proof.
  intros Hget Hlm.
  exists (fan_out_events dumps env (deref h p) (CONNECTED st)).
  split; [by apply broadcast_tick_send|].
  rewrite send_calls_fan_out, delivered_fan_out.
  rewrite !fst_pair_with, !length_fmap.
  split; [done|]. split; [apply NoDup_elements|]. split.
  - intros w m Hin. apply list_elem_of_fmap in Hin as (w' & [= -> ->] & Hin).
    by apply elem_of_elements in Hin.
  - split; [apply NoDup_filter, NoDup_elements|]. split.
    + intros wm Hin. apply list_elem_of_fmap in Hin as (w' & -> & Hin).
      apply list_elem_of_fmap. exists w'. split; [done|].
      by apply list_elem_of_filter in Hin as [_ Hin].
    + split; [apply length_filter|]. split.
      * intros w m. rewrite list_elem_of_fmap. split.
        -- intros (w' & [= -> ->] & Hin). by apply elem_of_elements in Hin.
        -- intros [-> Hin]. exists w. split; [done|]. by apply elem_of_elements.
      * intros w m. rewrite <- delivered_fan_out. apply delivered_fan_out_elem.
Qed.

End FanOutCounts.

Lemma fan_out_counts_witness :
  exists evs,
    broadcast_tick sample_dumps (get_payload lp0) sample_tick sample_bc =
      Py.Ok {| CONNECTED := CONNECTED sample_bc; b_trace := b_trace sample_bc ++ evs |} /\
    length (send_calls evs) = size (CONNECTED sample_bc) /\
    NoDup (send_calls evs).*1 /\
    (forall w m, (w, m) ∈ send_calls evs -> w ∈ CONNECTED sample_bc) /\
    NoDup (delivered evs).*1 /\
    delivered evs ⊆ send_calls evs /\
    length (delivered evs) <= size (CONNECTED sample_bc) /\
    (forall w m, (w, m) ∈ send_calls evs <->
       m = sample_dumps (deref heapA' copyA) /\ w ∈ CONNECTED sample_bc) /\
    (forall w m, (w, m) ∈ delivered evs <->
       m = sample_dumps (deref heapA' copyA) /\ w ∈ CONNECTED sample_bc /\
       b_send sample_tick w = Sent).
Proof.
  apply (fan_out_counts sample_dumps (get_payload lp0) sample_tick sample_bc
           copyA heapA'); reflexivity.
Defined.

(** ** From an iteration of the producer to a tick of the broadcaster *)

Section EndToEnd.
Variable dumps : pydict -> string.
Variable last_payload : loc.

Lemma assign_all_overwrites (ops : list (string * value)) (d : pydict) :
  NoDup ops.*1 -> dom d ⊆ list_to_set ops.*1 ->
  assign_all ops d = list_to_map ops.
Proof.
  intros Hnd Hdom. apply map_eq. intros k.
  destruct (decide (k ∈ ops.*1)) as [Hin|Hout].
  - apply list_elem_of_fmap in Hin as ([k' v] & -> & Hin). simpl.
    rewrite (assign_all_stored ops d k' v Hnd Hin).
    symmetry. by apply elem_of_list_to_map_1.
  - rewrite assign_all_untouched by done.
    rewrite (not_elem_of_list_to_map_1 _ k Hout).
    apply not_elem_of_dom. set_solver.
Qed.

(** After an iteration without a detection, a tick sends nothing, whatever
    the payload held before and still holds in its other fields. *)
Theorem no_detection_not_broadcast env s tenv st :
  no_detection env ->
  b_heap tenv = c_heap ((camera_iteration last_payload env s).2) ->
  broadcast_tick dumps (get_payload last_payload) tenv st =
    Py.Ok {| CONNECTED := CONNECTED st; b_trace := b_trace st ++ idle_events tenv |} /\
  send_calls (idle_events tenv) = [] /\ delivered (idle_events tenv) = [].
Proof.
  intros Hnd Hheap. split; [|done].
  rewrite (broadcast_tick_of_payload dumps last_payload tenv st VNone); [done|].
  rewrite Hheap, no_detection_iteration by done.
  rewrite deref_setitem_eq. by rewrite lookup_insert_eq.
Qed.

(** After an iteration with a detection, on a payload that had no key besides
    the six, the message of a tick is the serialization of a dict that holds
    the six fields of that iteration and nothing else: nothing of an earlier
    payload is sent. *)
Theorem detection_broadcast env fr lm_list s tenv st :
  cap_read env = Some fr -> f_pose fr = Some lm_list ->
  dom (deref (c_heap s) last_payload) ⊆ snapshot_keys ->
  b_heap tenv = c_heap ((camera_iteration last_payload env s).2) ->
  exists mid_hip_z,
    compute_mid_hip_z lm_list = Py.Ok mid_hip_z /\
    let d : pydict :=
      list_to_map (detection_stores env (c_prev s) fr
                     (landmarks_to_normalized_list lm_list) mid_hip_z) in
    dom d = snapshot_keys /\
    broadcast_tick dumps (get_payload last_payload) tenv st =
      Py.Ok {| CONNECTED := CONNECTED st;
               b_trace := b_trace st ++ fan_out_events dumps tenv d (CONNECTED st) |}.
Proof.
  intros Hread Hpose Hdom Hheap.
  destruct (compute_mid_hip_z_returns lm_list) as [m Hm]. exists m. split; [done|].
  set (ops := detection_stores env (c_prev s) fr (landmarks_to_normalized_list lm_list) m).
  assert (Hops : iteration_stores env (c_prev s) fr = Py.Ok ops).
  { unfold iteration_stores. by rewrite Hpose, Hm. }
  assert (Hd : deref (b_heap tenv) last_payload = list_to_map ops).
  { rewrite Hheap, (camera_iteration_run last_payload env fr ops s Hread Hops).
    cbn [snd c_heap]. rewrite deref_write_all. apply assign_all_overwrites.
    - apply detection_stores_NoDup.
    - unfold ops. rewrite detection_stores_keys. unfold snapshot_keys in Hdom. set_solver. }
  cbv zeta. split.
  - rewrite dom_list_to_map_L. unfold ops. rewrite detection_stores_keys.
    unfold snapshot_keys. set_solver.
  - rewrite (broadcast_tick_of_payload dumps last_payload tenv st
               (VList (landmarks_to_normalized_list lm_list))).
    + simpl. by rewrite Hd.
    + rewrite Hd. apply elem_of_list_to_map_1; [apply detection_stores_NoDup|].
      unfold ops, detection_stores. set_solver.
Qed.

End EndToEnd.

(** ** The broadcaster as a whole *)

Section BroadcasterLoop.
Variable dumps : pydict -> string.
Variable get_payload_fn : heap -> Py.result (option loc * heap).

Lemma broadcast_pacing_positive (elapsed : Q) :
  (0 < slept (broadcast_pacing elapsed))%Q.
Proof.
  unfold broadcast_pacing; cbv zeta.
  destruct (Qlt_le_dec 0 (FRAME_DELAY - elapsed)) as [Hlt|_]; simpl; [done|reflexivity].
Qed.

Lemma broadcast_tick_events env st st' :
  broadcast_tick dumps get_payload_fn env st = Py.Ok st' ->
  CONNECTED st' = CONNECTED st /\
  (b_trace st' = b_trace st ++ idle_events env \/
   exists payload,
     b_trace st' = b_trace st ++ fan_out_events dumps env payload (CONNECTED st)).
Proof.
  unfold broadcast_tick.
  destruct (get_payload_fn (b_heap env)) as [[payload h]|e]; [|done].
  destruct payload as [p|].
  - destruct (is_none (dict_get (deref h p) "landmarks")) eqn:Hlm.
    + rewrite (tick_body_idle dumps env (Some p) h) by done.
      intros [= <-]. split; [done|]. by left.
    + rewrite tick_body_send by done. intros [= <-]. split; [done|]. right.
      by exists (deref h p).
  - rewrite (tick_body_idle dumps env None h) by done.
    intros [= <-]. split; [done|]. by left.
Qed.

Lemma bc_sleeps_fan_out env payload connected :
  bc_sleeps (fan_out_events dumps env payload connected) =
    [slept (broadcast_pacing (b_end env - b_start env)%Q)].
Proof.
  unfold fan_out_events, bc_sleeps. simpl. rewrite !omap_app.
  by rewrite !omap_fmap_None.
Qed.

(** Every tick sleeps, and only for positive durations: once when it sent,
    twice when it idled. The loop never spins without yielding. *)
Theorem broadcaster_always_yields env st st' :
  broadcast_tick dumps get_payload_fn env st = Py.Ok st' ->
  exists evs,
    b_trace st' = b_trace st ++ evs /\
    1 <= length (bc_sleeps evs) <= 2 /\
    Forall (fun d => (0 < d)%Q) (bc_sleeps evs) /\
    last evs = Some (BSleep (slept (broadcast_pacing (b_end env - b_start env)%Q))).
Proof.
  intros Htick.
  destruct (broadcast_tick_events env st st' Htick) as [_ [Htr|[payload Htr]]].
  - exists (idle_events env). split; [done|]. split; [simpl; lia|].
    split; [|done]. repeat constructor. apply broadcast_pacing_positive.
  - exists (fan_out_events dumps env payload (CONNECTED st)). split; [done|].
    rewrite bc_sleeps_fan_out. split; [simpl; lia|].
    split; [repeat constructor; apply broadcast_pacing_positive|].
    unfold fan_out_events. rewrite app_comm_cons, app_assoc. apply last_snoc.
Qed.

Lemma broadcast_loop_app pre rest st st1 :
  broadcast_loop dumps get_payload_fn pre st = Py.Ok (Running, st1) ->
  broadcast_loop dumps get_payload_fn (pre ++ rest) st =
    broadcast_loop dumps get_payload_fn rest st1.
Proof.
  revert st. induction pre as [|env pre IH]; intros st; simpl.
  - by intros [= ->].
  - destruct (b_stop_seen env); [done|].
    destruct (broadcast_tick dumps get_payload_fn env st) as [st'|e]; [|done].
    apply IH.
Qed.

(** The loop ends at the first tick that sees the stop event, without running
    that tick or any later one; and an exception of [get_payload_fn] is not
    caught: it ends the loop. *)
Theorem broadcast_loop_ends :
  (forall pre env post st st1,
     broadcast_loop dumps get_payload_fn pre st = Py.Ok (Running, st1) ->
     b_stop_seen env = true ->
     broadcast_loop dumps get_payload_fn (pre ++ env :: post) st = Py.Ok (Exited, st1)) /\
  (forall pre env post st st1 e,
     broadcast_loop dumps get_payload_fn pre st = Py.Ok (Running, st1) ->
     b_stop_seen env = false ->
     get_payload_fn (b_heap env) = Py.Raise e ->
     broadcast_loop dumps get_payload_fn (pre ++ env :: post) st = Py.Raise e).
Proof.
  split.
  - intros pre env post st st1 Hpre Hstop.
    rewrite (broadcast_loop_app pre _ st st1 Hpre). simpl. by rewrite Hstop.
  - intros pre env post st st1 e Hpre Hstop Hget.
    rewrite (broadcast_loop_app pre _ st st1 Hpre). simpl. rewrite Hstop.
    unfold broadcast_tick. by rewrite Hget.
Qed.

(** A connection whose handler has ended before a tick lists the registry
    gets no call of [send] and no delivery in that tick; one whose handler
    has started gets one call with the tick's message, and the delivery when
    its send completes. *)
Theorem registry_decides_fan_out env st p h w how :
  get_payload_fn (b_heap env) = Py.Ok (Some p, h) ->
  is_none (dict_get (deref h p) "landmarks") = false ->
  (exists evs,
     broadcast_tick dumps get_payload_fn env
       {| CONNECTED := ws_handler_exit w how (CONNECTED st); b_trace := b_trace st |}
       = Py.Ok {| CONNECTED := ws_handler_exit w how (CONNECTED st);
                  b_trace := b_trace st ++ evs |} /\
     (forall m, (w, m) ∉ send_calls evs) /\
     (forall m, (w, m) ∉ delivered evs)) /\
  (exists evs,
     broadcast_tick dumps get_payload_fn env
       {| CONNECTED := ws_handler_enter w (CONNECTED st); b_trace := b_trace st |}
       = Py.Ok {| CONNECTED := ws_handler_enter w (CONNECTED st);
                  b_trace := b_trace st ++ evs |} /\
     (w, dumps (deref h p)) ∈ send_calls evs /\
     ((w, dumps (deref h p)) ∈ delivered evs <-> b_send env w = Sent)).
Proof.
  intros Hget Hlm.
  destruct (ws_handler_exit_removes w how (CONNECTED st)) as [Hout _]. split.
  - exists (fan_out_events dumps env (deref h p) (ws_handler_exit w how (CONNECTED st))).
    split; [exact (broadcast_tick_send dumps get_payload_fn env _ p h Hget Hlm)|].
    split.
    + intros m Hin. rewrite send_calls_fan_out in Hin.
      apply list_elem_of_fmap in Hin as (w' & [= <- _] & Hin).
      by apply elem_of_elements in Hin.
    + intros m Hin. by apply delivered_fan_out_elem in Hin as (_ & Hin & _).
  - exists (fan_out_events dumps env (deref h p) (ws_handler_enter w (CONNECTED st))).
    split; [exact (broadcast_tick_send dumps get_payload_fn env _ p h Hget Hlm)|].
    assert (Hin : w ∈ ws_handler_enter w (CONNECTED st))
      by (unfold ws_handler_enter; set_solver).
    split.
    + rewrite send_calls_fan_out. apply list_elem_of_fmap. exists w. split; [done|].
      by apply elem_of_elements.
    + rewrite delivered_fan_out_elem. naive_solver.
Qed.

End BroadcasterLoop.

(** ** The registry *)

(** A handler leaves the registry as it found it: entering and then leaving
    gives back a registry that did not hold the connection; leaving removes
    it however the handler ends, also when it is no longer there (as after
    another removal), and entering twice is entering once. *)
Theorem ws_handler_round_trip (w : ws) (how how' : handler_end) (connected : gset ws) :
  (w ∉ connected -> ws_handler_exit w how (ws_handler_enter w connected) = connected) /\
  ws_handler_exit w how (ws_handler_enter w connected) = ws_handler_exit w how' connected /\
  ws_handler_exit w how (ws_handler_exit w how' connected) = ws_handler_exit w how' connected /\
  ws_handler_enter w (ws_handler_enter w connected) = ws_handler_enter w connected.
Proof.
  unfold ws_handler_enter. destruct how, how'; simpl; repeat split; set_solver.
Qed.

Lemma ws_handler_round_trip_witness :
  ws_handler_exit 4 ClosedOK (ws_handler_enter 4 sample_registry) = sample_registry.
Proof.
  apply (proj1 (ws_handler_round_trip 4 ClosedOK PeerClosed sample_registry)).
  unfold sample_registry. set_solver.
Defined.

(** ** The server *)







(** ** Reads under any schedule *)

Section InterleavedReads.
Variable last_payload : loc.

Lemma setitem_keeps_landmarks h k v :
  is_Some (deref h last_payload !! "landmarks") ->
  is_Some (deref (setitem last_payload k v h) last_payload !! "landmarks").
Proof.
  intros Hk. rewrite deref_setitem_eq.
  destruct (decide (k = "landmarks")) as [->|Hne].
  - rewrite lookup_insert_eq. by eexists.
  - by rewrite lookup_insert_ne.
Qed.

Lemma get_payload_test_run h v :
  deref h last_payload !! "landmarks" = Some v ->
  get_payload_test last_payload h = Py.Ok (is_none v).
Proof. intros Hv. unfold get_payload_test, dict_getitem. by rewrite Hv. Qed.

(** A call of the reader that the writer does not interrupt is [get_payload]. *)
Lemma interleave_uninterrupted pending h v :
  deref h last_payload !! "landmarks" = Some v ->
  interleave last_payload (if is_none v then [ReaderTurn] else [ReaderTurn; ReaderTurn])
    pending h
  = [read_contents last_payload h].
Proof.
  intros Hv. unfold interleave. rewrite (read_contents_spec last_payload h v Hv).
  unfold expected_read. destruct (is_none v) eqn:Hn; simpl.
  - by rewrite (get_payload_test_run h v Hv), Hn.
  - rewrite (get_payload_test_run h v Hv), Hn. simpl. by rewrite deref_insert_eq.
Qed.

(** However the assignments of the writer and the two statements of
    [get_payload] are interleaved, and whatever the writer assigns, a read of
    a payload that has a [landmarks] entry does not raise, and the dict it
    returns, torn or not, has a [landmarks] entry. That entry can be None:
    when the assignment of line 110 falls between the test and the copy, the
    call returns a dict whose [landmarks] is None. A call that is not
    interrupted is [get_payload]. *)
Theorem interleaved_reads_return :
  (forall sched pending pc h,
     is_Some (deref h last_payload !! "landmarks") ->
     Forall (fun r =>
               exists o, r = Py.Ok o /\
                 forall d, o = Some d -> is_Some (d !! "landmarks"))
       (interleave_from last_payload sched pending pc h)) /\
  (forall h v,
     deref h last_payload !! "landmarks" = Some v -> is_none v = false ->
     exists d,
       interleave last_payload [ReaderTurn; WriterTurn; ReaderTurn] no_detection_stores h
         = [Py.Ok (Some d)] /\
       d !! "landmarks" = Some VNone /\
       forall k, k ≠ "landmarks" -> d !! k = deref h last_payload !! k) /\
  (forall pending h v,
     deref h last_payload !! "landmarks" = Some v ->
     interleave last_payload (if is_none v then [ReaderTurn] else [ReaderTurn; ReaderTurn])
       pending h
     = [read_contents last_payload h]).
Proof.
  split; [|split; [|exact interleave_uninterrupted]].
  - intros sched. induction sched as [|[|] sched IH]; intros pending pc h Hk; simpl.
    + constructor.
    + destruct pending as [|kv rest]; [by apply IH|].
      apply IH. by apply setitem_keeps_landmarks.
    + destruct pc.
      * destruct Hk as [v Hv]. rewrite (get_payload_test_run h v Hv).
        destruct (is_none v); [|apply IH; by eexists].
        constructor; [|apply IH; by eexists].
        exists None. split; [done|]. by intros d.
      * assert (Hd : deref (<[fresh (dom h) := deref h last_payload]> h) last_payload
                     = deref h last_payload).
        { destruct Hk as [v Hv]. apply deref_copy_other. by eapply deref_key_allocated. }
        constructor; [|apply IH; by rewrite Hd].
        eexists. split; [done|]. intros d [= <-]. by rewrite deref_insert_eq.
  - intros h v Hv Hn. unfold interleave. simpl.
    rewrite (get_payload_test_run h v Hv), Hn.
    eexists. split; [done|]. rewrite deref_insert_eq, deref_setitem_eq.
    split; [by rewrite lookup_insert_eq|].
    intros k Hk. by rewrite lookup_insert_ne.
Qed.

End InterleavedReads.

Lemma interleaved_reads_return_witness :
  Forall (fun r =>
            exists o, r = Py.Ok o /\
              forall d, o = Some d -> is_Some (d !! "landmarks"))
    (interleave_from lp0 torn_schedule (opsA ++ opsB) AtTest heap0) /\
  exists d,
    interleave lp0 [ReaderTurn; WriterTurn; ReaderTurn] no_detection_stores heapA
      = [Py.Ok (Some d)] /\
    d !! "landmarks" = Some VNone /\
    forall k, k ≠ "landmarks" -> d !! k = deref heapA lp0 !! k.
Proof.
  split.
  - apply (proj1 (interleaved_reads_return lp0) torn_schedule (opsA ++ opsB) AtTest heap0).
    exists VNone. reflexivity.
  - apply (proj1 (proj2 (interleaved_reads_return lp0)) heapA
             (VList (landmarks_to_normalized_list sample_pose))); reflexivity.
Defined.

(** ** The further properties at sample inputs *)


Lemma producer_touches_only_payload_witness :
  c_heap ((camera_worker lp0 true 10 [envA; envN; envF] st0).2) !! 2%positive
    = c_heap st0 !! 2%positive.
Proof.
  apply (producer_touches_only_payload lp0 true 10%Q [envA; envN; envF] st0 2%positive).
  discriminate.
Defined.

Lemma stop_event_respected_witness :
  camera_worker lp0 true 10 [envA; envB] stopped_st0 =
    (Py.Ok Exited,
     {| c_heap := c_heap stopped_st0; c_stop := true; c_prev := 10;
        c_trace := c_trace stopped_st0 ++ [ERelease] |}).
Proof.
  apply (proj2 (proj2 (stop_event_respected lp0)) 10%Q envA [envB] stopped_st0).
  left. reflexivity.
Defined.

Lemma q_key_stops_witness :
  exists ops s',
    iteration_stores envQ 10 frA = Py.Ok ops /\
    camera_worker lp0 true 10 [envQ; envB] st0 = (Py.Ok Exited, s') /\
    c_stop s' = true /\
    c_heap s' = write_all lp0 ops (c_heap st0) /\
    stores_of (c_trace s') = stores_of (c_trace st0) ++ ops.
Proof.
  apply (proj2 (q_key_stops lp0) 10%Q envQ [envB] frA st0); reflexivity.
Defined.

Lemma camera_released_once_witness :
  releases (c_trace ((camera_worker lp0 true 10 [envF] st0).2)) = S (releases (c_trace st0)) /\
  exists tr, c_trace ((camera_worker lp0 true 10 [envF] st0).2) = tr ++ [ERelease].
Proof.
  apply (proj2 (proj2 (camera_released_once lp0 true 10%Q [envF] st0))).
  - reflexivity.
  - discriminate.
Defined.

Lemma producer_sleeps_positive_witness :
  Forall (fun d => (0 < d)%Q)
    (cam_sleeps (c_trace ((camera_worker lp0 true 10 [envA; envN; envF] st0).2))).
Proof.
  apply (producer_sleeps_positive lp0 true 10%Q [envA; envN; envF] st0). constructor.
Defined.

Lemma broadcaster_always_yields_witness :
  exists evs,
    b_trace sample_bc ++ idle_events idle_tick = b_trace sample_bc ++ evs /\
    1 <= length (bc_sleeps evs) <= 2 /\
    Forall (fun d => (0 < d)%Q) (bc_sleeps evs) /\
    last evs = Some (BSleep (slept (broadcast_pacing (b_end idle_tick - b_start idle_tick)%Q))).
Proof.
  apply (broadcaster_always_yields sample_dumps (get_payload lp0) idle_tick sample_bc
           {| CONNECTED := CONNECTED sample_bc;
              b_trace := b_trace sample_bc ++ idle_events idle_tick |}).
  reflexivity.
Defined.

Lemma broadcast_loop_ends_witness :
  broadcast_loop sample_dumps (get_payload lp0) ([] ++ stop_tick :: [sample_tick]) sample_bc
    = Py.Ok (Exited, sample_bc) /\
  broadcast_loop sample_dumps (get_payload 7%positive) ([] ++ sample_tick :: [stop_tick])
    sample_bc = Py.Raise Py.KeyError.
Proof.
  split.
  - apply (proj1 (broadcast_loop_ends sample_dumps (get_payload lp0))
             [] stop_tick [sample_tick] sample_bc sample_bc); reflexivity.
  - apply (proj2 (broadcast_loop_ends sample_dumps (get_payload 7%positive))
             [] sample_tick [stop_tick] sample_bc sample_bc Py.KeyError); reflexivity.
Defined.

Lemma registry_decides_fan_out_witness :
  (exists evs,
     broadcast_tick sample_dumps (get_payload lp0) sample_tick
       {| CONNECTED := ws_handler_exit 2 ConnectionError (CONNECTED sample_bc);
          b_trace := b_trace sample_bc |}
       = Py.Ok {| CONNECTED := ws_handler_exit 2 ConnectionError (CONNECTED sample_bc);
                  b_trace := b_trace sample_bc ++ evs |} /\
     (forall m, (2, m) ∉ send_calls evs) /\
     (forall m, (2, m) ∉ delivered evs)) /\
  (exists evs,
     broadcast_tick sample_dumps (get_payload lp0) sample_tick
       {| CONNECTED := ws_handler_enter 2 (CONNECTED sample_bc);
          b_trace := b_trace sample_bc |}
       = Py.Ok {| CONNECTED := ws_handler_enter 2 (CONNECTED sample_bc);
                  b_trace := b_trace sample_bc ++ evs |} /\
     (2, sample_dumps (deref heapA' copyA)) ∈ send_calls evs /\
     ((2, sample_dumps (deref heapA' copyA)) ∈ delivered evs <->
        b_send sample_tick 2 = Sent)).
Proof.
  apply (registry_decides_fan_out sample_dumps (get_payload lp0) sample_tick sample_bc
           copyA heapA' 2 ConnectionError); reflexivity.
Defined.

Lemma no_detection_not_broadcast_witness :
  broadcast_tick sample_dumps (get_payload lp0) idle_tick sample_bc =
    Py.Ok {| CONNECTED := CONNECTED sample_bc;
             b_trace := b_trace sample_bc ++ idle_events idle_tick |} /\
  send_calls (idle_events idle_tick) = [] /\ delivered (idle_events idle_tick) = [].
Proof.
  apply (no_detection_not_broadcast sample_dumps lp0 envN stA idle_tick sample_bc).
  - exists frN. split; reflexivity.
  - reflexivity.
Defined.

Lemma detection_broadcast_witness :
  exists mid_hip_z,
    compute_mid_hip_z sample_pose = Py.Ok mid_hip_z /\
    let d : pydict :=
      list_to_map (detection_stores envA (c_prev st0) frA
                     (landmarks_to_normalized_list sample_pose) mid_hip_z) in
    dom d = snapshot_keys /\
    broadcast_tick sample_dumps (get_payload lp0) sample_tick sample_bc =
      Py.Ok {| CONNECTED := CONNECTED sample_bc;
               b_trace := b_trace sample_bc
                 ++ fan_out_events sample_dumps sample_tick d (CONNECTED sample_bc) |}.
Proof.
  apply (detection_broadcast sample_dumps lp0 envA frA sample_pose st0 sample_tick sample_bc).
  - reflexivity.
  - reflexivity.
  - exact (proj1 (proj2 payload_wf_initial)).
  - reflexivity.
Defined.
